(** * nixos-render-docs: the manual converter ([nixos_render_docs/manual.py])

    A shallow embedding of the DocBook manual renderers and converters:
    the heading classifier of [ManualDocBookRenderer] and
    [ManualFragmentDocBookRenderer], the block renderers ([code_block],
    [fence], the paragraph wrappers), the section assembler
    ([BaseConverter.add_section], [DocBookSectionConverter.finalize]) and
    the fragment assembler ([DocBookFragmentConverter.convert]).

    Python [str] is embedded as [string], [dict[str, str]] as
    [gmap string string], [Optional] as [option], [list] as [list], and a
    method that mutates [self] or raises as a function in a state and
    exception monad. *)

From stdpp Require Import gmap strings list fin_maps pretty.
From Stdlib Require Import ZArith Ascii.

(** ** Python strings *)

Module Py.

(** Characters that cannot be written inside a string literal. *)
Definition nl : string := String "010" EmptyString.
Definition dquote : string := String "034" EmptyString.
Definition squote : string := "'".

(** [s.replace(old, new)] for a one-character [old]. *)
Fixpoint replace (old : ascii) (new : string) (s : string) : string :=
  match s with
  | EmptyString => EmptyString
  | String c s' =>
      if Ascii.eqb c old then new +:+ replace old new s'
      else String c (replace old new s')
  end.

(** [c in s] for a one-character [c]. *)
Fixpoint contains (c : ascii) (s : string) : bool :=
  match s with
  | EmptyString => false
  | String c' s' => Ascii.eqb c' c || contains c s'
  end.

(** [sep.join(l)]. *)
Definition join (sep : string) (l : list string) : string :=
  String.concat sep l.

(** [str(n)] for an [int], as an f-string interpolates it. *)
Definition str_int (n : Z) : string := pretty n.

End Py.

(** ** [xml.sax.saxutils] *)

Module saxutils.
Import Py.

(** [escape(data)]: the three replacements, in the library's order. *)
Definition escape (data : string) : string :=
  let data := replace "&" "&amp;" data in
  let data := replace ">" "&gt;" data in
  let data := replace "<" "&lt;" data in
  data.

(** [escape(data, entities)] with the entities [quoteattr] adds:
    newline, carriage return and tab, replaced in that order. *)
Definition escape_attr (data : string) : string :=
  let data := escape data in
  let data := replace "010" "&#10;" data in
  let data := replace "013" "&#13;" data in
  let data := replace "009" "&#9;" data in
  data.

(** The entity of one character, in the words of the format: [&], [>]
    and [<] become [&amp;], [&gt;] and [&lt;], everything else is kept.
    [escape] is compared with it in [escape_entities]. *)
Definition entity (c : ascii) : string :=
  if Ascii.eqb c "&" then "&amp;"
  else if Ascii.eqb c ">" then "&gt;"
  else if Ascii.eqb c "<" then "&lt;"
  else String c EmptyString.

Fixpoint entities (s : string) : string :=
  match s with
  | EmptyString => EmptyString
  | String c s' => entity c +:+ entities s'
  end.

Definition quoteattr (data : string) : string :=
  let data := escape_attr data in
  if contains "034" data then
    if contains "'" data then
      dquote +:+ replace "034" "&quot;" data +:+ dquote
    else
      squote +:+ data +:+ squote
  else
    dquote +:+ data +:+ dquote.

End saxutils.

(** ** Tokens and exceptions *)

(** The fields of a markdown-it [Token] that the manual renderers read. *)
Module Token.
Record t : Type := mk {
  type : string;                   (* the dispatch key, e.g. "heading_open" *)
  tag : string;                    (* "h1" .. "h6" for headings *)
  attrs : gmap string string;
  map : option (Z * Z);            (* the source line range [map[0], map[1]] *)
  info : string;                   (* the info string of a fence *)
  content : string
}.
End Token.

(** The exceptions (instances of Python's [Exception]) that cross the
    renderers.  [RuntimeError] carries its message, the extra token
    argument when one is passed, and the [__cause__] set by [raise .. from]. *)
#[warnings="-register-all"]
Inductive Exception : Type :=
| RuntimeError (msg : string) (arg : option Token.t) (cause : option Exception)
| AssertionError
| IndexError
| NotImplementedError (msg : string) (arg : Token.t)
| OSError (msg : string)
| ParseError (msg : string).

(** ** Methods that mutate [self] or raise

    [M S A] is a computation over an object of type [S] that either
    returns an [A] or raises; the object's state survives a raise, as a
    Python object's attributes do. *)

Definition M (S A : Type) : Type := S -> (Exception + A) * S.

#[global] Instance M_ret {S} : MRet (M S) :=
  fun A (a : A) s => (inr a, s).

#[global] Instance M_bind {S} : MBind (M S) :=
  fun A B (k : A -> M S B) (m : M S A) s =>
    match m s with
    | (inl e, s') => (inl e, s')
    | (inr a, s') => k a s'
    end.

Definition raise {S A} (e : Exception) : M S A := fun s => (inl e, s).

Definition get {S} : M S S := fun s => (inr s, s).

Definition modify {S} (f : S -> S) : M S unit := fun s => (inr tt, f s).

(** A result of a pure collaborator, raised or returned. *)
Definition lift {S A} (r : Exception + A) : M S A :=
  match r with
  | inl e => raise e
  | inr a => mret a
  end.

(** [try: m except Exception as e: h e] *)
Definition try_except {S A} (m : M S A) (h : Exception -> M S A) : M S A :=
  fun s =>
    match m s with
    | (inl e, s') => h e s'
    | r => r
    end.

(** Run a method of an attribute (or of the base part) of the object. *)
Definition zoom {S T A} (proj : S -> T) (upd : T -> S -> S) (m : M T A) : M S A :=
  fun s => let '(r, t') := m (proj s) in (r, upd t' s).

(** [for x in l: body x] *)
Fixpoint for_each {S A} (l : list A) (body : A -> M S unit) : M S unit :=
  match l with
  | [] => mret tt
  | x :: l' => body x ≫= fun _ => for_each l' body
  end.

(** [d1 | d2] on dicts: the right operand wins on a shared key. *)
Definition dict_or (d1 d2 : gmap string string) : gmap string string := d2 ∪ d1.

(** ** The rest of the package, as the module sees it

    [manual.py] subclasses [DocBookRenderer] (docbook.py) and [Converter]
    (md.py) and reads files; these are the methods it calls on them. *)

Definition Path : Type := string.

(** An opened text file: [f.read()] returns the text or raises. *)
Record File : Type := { read : Exception + string }.

Class Package : Type := {
  (** [DocBookRenderer._heading_tag]: the natural tag and attributes of a
      heading *)
  DocBookRenderer_heading_tag :
    Token.t -> list Token.t -> nat -> string * gmap string string;
  (** [DocBookRenderer.paragraph_open] and [paragraph_close] *)
  DocBookRenderer_paragraph_open : Token.t -> list Token.t -> nat -> string;
  DocBookRenderer_paragraph_close : Token.t -> list Token.t -> nat -> string;
  (** how [DocBookRenderer.heading_open] lays out a classified heading *)
  DocBookRenderer_heading_markup :
    string * gmap string string -> Token.t -> list Token.t -> nat -> string;
  (** every rule the manual renderers do not override *)
  DocBookRenderer_rule : Token.t -> list Token.t -> nat -> Exception + string;
  (** [Converter._parse]: the markdown-it tokenizer *)
  parse : string -> Exception + list Token.t;
  (** [open(path, 'r')] *)
  open_ : Path -> Exception + File
}.

(** ** [ManualDocBookRenderer] *)

Module ManualDocBookRenderer.
Import Py saxutils.

Record t : Type := mk { _title_seen : bool }.

(** The class attribute [_title_seen = False]. *)
Definition new : t := {| _title_seen := false |}.

Definition second_title_message (m0 m1 : Z) : string :=
  "only one title heading (# [text...]) allowed per manual chapter "
  +:+ "but found a second in lines [" +:+ str_int m0 +:+ ".." +:+ str_int m1 +:+ "]. "
  +:+ "please remove all such headings except the first, split your "
  +:+ "chapters, or demote the subsequent headings to (##) or lower.".

Definition namespaces : gmap string string :=
  {[ "xmlns" := "http://docbook.org/ns/docbook";
     "xmlns:xlink" := "http://www.w3.org/1999/xlink" ]}.

Section Methods.
Context `{Package}.

Definition _heading_tag (token : Token.t) (tokens : list Token.t) (i : nat)
  : M t (string * gmap string string) :=
  let '(tag, attrs) := DocBookRenderer_heading_tag token tokens i in
  self ← get;
  if _title_seen self then
    if String.eqb (Token.tag token) "h1" then
      match Token.map token with
      | None => raise AssertionError
      | Some (m0, m1) =>
          raise (RuntimeError (second_title_message m0 m1) (Some token) None)
      end
    else mret (tag, attrs)
  else
    modify (fun _ => {| _title_seen := true |});;
    mret ("chapter", dict_or attrs namespaces).

Definition paragraph_open (token : Token.t) (tokens : list Token.t) (i : nat)
  : string :=
  DocBookRenderer_paragraph_open token tokens i +:+ nl +:+ " ".

Definition paragraph_close (token : Token.t) (tokens : list Token.t) (i : nat)
  : string :=
  nl +:+ DocBookRenderer_paragraph_close token tokens i.

Definition code_block (token : Token.t) : string :=
  "<programlisting>" +:+ nl +:+ escape (Token.content token)
    +:+ "</programlisting>".

Definition fence (token : Token.t) : string :=
  if String.eqb (Token.info token) "{=docbook}" then
    Token.content token
  else
    let info :=
      if negb (String.eqb (Token.info token) "") then
        " language=" +:+ quoteattr (Token.info token)
      else "" in
    "<programlisting" +:+ info +:+ ">" +:+ nl +:+ escape (Token.content token)
      +:+ "</programlisting>".
End Methods.
End ManualDocBookRenderer.

(** ** [ManualFragmentDocBookRenderer] *)

Module ManualFragmentDocBookRenderer.

(** The subclass adds [_tag] to the attributes of its base. *)
Record t : Type := mk { super : ManualDocBookRenderer.t; _tag : string }.

(** The class attributes: [_title_seen = False], [_tag = "chapter"]. *)
Definition new : t :=
  {| super := ManualDocBookRenderer.new; _tag := "chapter" |}.

Definition _title_seen (self : t) : bool :=
  ManualDocBookRenderer._title_seen (super self).

Definition set_super (b : ManualDocBookRenderer.t) (self : t) : t :=
  {| super := b; _tag := _tag self |}.

Definition xinclude : gmap string string :=
  {[ "xmlns:xi" := "http://www.w3.org/2001/XInclude" ]}.

Section Methods.
Context `{Package}.

Definition _heading_tag (token : Token.t) (tokens : list Token.t) (i : nat)
  : M t (string * gmap string string) :=
  '(tag, attrs) ← zoom super set_super
                    (ManualDocBookRenderer._heading_tag token tokens i);
  self ← get;
  if String.eqb (Token.tag token) "h1" then
    mret (_tag self, dict_or attrs xinclude)
  else mret (tag, attrs).
End Methods.
End ManualFragmentDocBookRenderer.

(** ** The token dispatcher *)

Module Renderer.
Section Dispatch.
Context `{Package} {R : Type}.

(** The renderer's own [_heading_tag], chosen by its class. *)
Variable heading_tag :
  Token.t -> list Token.t -> nat -> M R (string * gmap string string).

(** Modelled from the spec: the rule table of the renderer in md.py
    and docbook.py, "a generic per-token-type rendering dispatcher"
    whose handlers for headings, paragraphs, code blocks and fences are
    the overrides of [ManualDocBookRenderer]; a heading is classified
    by [_heading_tag] and then laid out by the base class. *)
Definition rule (tokens : list Token.t) (i : nat) (token : Token.t)
  : M R string :=
  if String.eqb (Token.type token) "heading_open" then
    p ← heading_tag token tokens i;
    mret (DocBookRenderer_heading_markup p token tokens i)
  else if String.eqb (Token.type token) "paragraph_open" then
    mret (ManualDocBookRenderer.paragraph_open token tokens i)
  else if String.eqb (Token.type token) "paragraph_close" then
    mret (ManualDocBookRenderer.paragraph_close token tokens i)
  else if String.eqb (Token.type token) "code_block" then
    mret (ManualDocBookRenderer.code_block token)
  else if String.eqb (Token.type token) "fence" then
    mret (ManualDocBookRenderer.fence token)
  else lift (DocBookRenderer_rule token tokens i).

(** Modelled from the spec: [Renderer.render] of md.py, which "walks
    the token stream and invokes type-specific handlers, producing a
    single output string per input document": the handlers run in
    token order and their outputs are concatenated. *)
Fixpoint render_from (tokens : list Token.t) (i : nat) (rest : list Token.t)
  : M R string :=
  match rest with
  | [] => mret ""
  | token :: rest' =>
      out ← rule tokens i token;
      outs ← render_from tokens (S i) rest';
      mret (out +:+ outs)
  end.

Definition render (tokens : list Token.t) : M R string :=
  render_from tokens 0 tokens.

(** Modelled from the spec: [Converter._render] of md.py, tokenize and
    then render. *)
Definition _render (src : string) : M R string :=
  tokens ← lift (parse src);
  render tokens.
End Dispatch.
End Renderer.

(** ** [RenderedSection], [BaseConverter] and [DocBookSectionConverter] *)

Module RenderedSection.
Record t : Type := mk { id : option string; chapters : list string }.

(** [RenderedSection(id)] *)
Definition new (id : option string) : t := {| id := id; chapters := [] |}.

(** [section.chapters.append(chapter)] *)
Definition append (chapter : string) (section : t) : t :=
  {| id := id section; chapters := chapters section ++ [chapter] |}.
End RenderedSection.

Module BaseConverter.

(** The converter and the renderer it owns ([self._md.renderer]); the
    section converter instantiates [ManualDocBookRenderer]. *)
Record t : Type := mk {
  _sections : list RenderedSection.t;
  renderer : ManualDocBookRenderer.t
}.

(** [__init__] *)
Definition new : t :=
  {| _sections := []; renderer := ManualDocBookRenderer.new |}.

Definition set_renderer (r : ManualDocBookRenderer.t) (self : t) : t :=
  {| _sections := _sections self; renderer := r |}.

Definition set_sections (l : list RenderedSection.t) (self : t) : t :=
  {| _sections := l; renderer := renderer self |}.

(** [self._sections[-1]]: raises on an empty list. *)
Definition last_section : M t RenderedSection.t :=
  self ← get;
  match last (_sections self) with
  | Some section => mret section
  | None => raise IndexError
  end.

(** [self._sections[-1].chapters.append(chapter)] *)
Definition append_chapter (chapter : string) (self : t) : t :=
  set_sections
    (alter (RenderedSection.append chapter) (length (_sections self) - 1)
       (_sections self))
    self.

Section Methods.
Context `{Package}.

Definition _render (src : string) : M t string :=
  zoom renderer set_renderer
    (Renderer._render ManualDocBookRenderer._heading_tag src).

(** The body of the loop of [add_section]: one chapter, rendered and
    appended inside [try], any exception re-raised from [except].  In
    [self._sections[-1].chapters.append(self._render(f.read()))] the list
    to append to is looked up before the argument is evaluated. *)
Definition add_section_chapter (chpath : Path) : M t unit :=
  try_except
    (f ← lift (open_ chpath);
     modify (set_renderer {| ManualDocBookRenderer._title_seen := false |});;
     _ ← last_section;
     src ← lift (read f);
     chapter ← _render src;
     modify (append_chapter chapter))
    (fun e =>
       raise (RuntimeError ("failed to render manual chapter " +:+ chpath)
                None (Some e))).

Definition add_section (id : option string) (chapters : list Path) : M t unit :=
  modify (fun self => set_sections (_sections self ++ [RenderedSection.new id]) self);;
  for_each chapters add_section_chapter.

(** What the [try] block computes for [chpath], as a value: the chapter
    rendered from the reset renderer, or the exception that [open],
    [read], the tokenizer or a rule raised. *)
Definition chapter_outcome (chpath : Path) : Exception + string :=
  match open_ chpath with
  | inl e => inl e
  | inr f =>
      match read f with
      | inl e => inl e
      | inr src =>
          (Renderer._render ManualDocBookRenderer._heading_tag src
             {| ManualDocBookRenderer._title_seen := false |}).1
      end
  end.
End Methods.
End BaseConverter.

Module DocBookSectionConverter.
Import Py saxutils.

Definition finalize (self : BaseConverter.t) : string :=
  let result :=
    foldl
      (fun result section =>
         let id :=
           match RenderedSection.id section with
           | Some id => "id=" +:+ quoteattr id
           | None => ""
           end in
         let result := result ++ ["<section " +:+ id +:+ ">"] in
         let result := result ++ RenderedSection.chapters section in
         result ++ ["</section>"])
      [] (BaseConverter._sections self) in
  join nl result.
End DocBookSectionConverter.

(** ** [DocBookFragmentConverter] *)

Module DocBookFragmentConverter.

Record t : Type := mk { renderer : ManualFragmentDocBookRenderer.t }.

Definition new : t := {| renderer := ManualFragmentDocBookRenderer.new |}.

Definition set_renderer (r : ManualFragmentDocBookRenderer.t) (self : t) : t :=
  {| renderer := r |}.

(** [self._md.renderer._title_seen = b] *)
Definition set_title_seen (b : bool) (self : t) : t :=
  {| renderer :=
      ManualFragmentDocBookRenderer.set_super
        {| ManualDocBookRenderer._title_seen := b |} (renderer self) |}.

(** [self._md.renderer._tag = tag] *)
Definition set_tag (tag : string) (self : t) : t :=
  {| renderer :=
      {| ManualFragmentDocBookRenderer.super :=
           ManualFragmentDocBookRenderer.super (renderer self);
         ManualFragmentDocBookRenderer._tag := tag |} |}.

Section Methods.
Context `{Package}.

Definition _render (src : string) : M t string :=
  zoom renderer set_renderer
    (Renderer._render ManualFragmentDocBookRenderer._heading_tag src).

Definition convert (file : Path) (tag : string) : M t string :=
  try_except
    (f ← lift (open_ file);
     modify (set_title_seen false);;
     modify (set_tag tag);;
     src ← lift (read f);
     _render src)
    (fun e =>
       raise (RuntimeError ("failed to render manual " +:+ tag +:+ " " +:+ file)
                None (Some e))).

(** What the [try] block of [convert] computes, as a value: the fragment
    rendered from the renderer reset to the root tag [tag], or the
    exception raised on the way. *)
Definition fragment_outcome (file : Path) (tag : string) : Exception + string :=
  match open_ file with
  | inl e => inl e
  | inr f =>
      match read f with
      | inl e => inl e
      | inr src =>
          (Renderer._render ManualFragmentDocBookRenderer._heading_tag src
             {| ManualFragmentDocBookRenderer.super :=
                  {| ManualDocBookRenderer._title_seen := false |};
                ManualFragmentDocBookRenderer._tag := tag |}).1
      end
  end.
End Methods.
End DocBookFragmentConverter.

(** ** A small package to run the model on

    A stand-in for md.py, docbook.py, markdown-it and the file system,
    used for the concrete runs below: a line-based tokenizer (["# "] and
    ["## "] headings, paragraphs), headings whose natural tag is
    ["section"], and three files. *)

Module Sample.
Import Py saxutils.

Definition attrs_str (attrs : gmap string string) : string :=
  String.concat ""
    ((fun kv => " " +:+ kv.1 +:+ "=" +:+ quoteattr kv.2) <$> map_to_list attrs).

Fixpoint lines (s : string) (cur : string) : list string :=
  match s with
  | EmptyString => [String.rev cur]
  | String c s' =>
      if Ascii.eqb c "010" then String.rev cur :: lines s' ""
      else lines s' (String c cur)
  end.

Definition token (type tag : string) (line : Z) (content : string) : Token.t :=
  {| Token.type := type; Token.tag := tag; Token.attrs := ∅;
     Token.map := Some (line, line + 1)%Z; Token.info := "";
     Token.content := content |}.

Definition block (tag : string) (line : Z) (content : string) : list Token.t :=
  let kind := if String.eqb tag "p" then "paragraph" else "heading" in
  [ token (kind +:+ "_open") tag line "";
    token "inline" "" line content;
    token (kind +:+ "_close") tag line "" ].

(** [s.removeprefix(p)] when [s] starts with [p]. *)
Fixpoint strip (p s : string) : option string :=
  match p, s with
  | EmptyString, _ => Some s
  | String a p', String b s' => if Ascii.eqb a b then strip p' s' else None
  | _, _ => None
  end.

Definition tokenize_line (l : string) (line : Z) : list Token.t :=
  if String.eqb l "" then []
  else match strip "# " l with
       | Some s => block "h1" line s
       | None =>
           match strip "## " l with
           | Some s => block "h2" line s
           | None => block "p" line l
           end
       end.

Fixpoint tokenize (ls : list string) (line : Z) : list Token.t :=
  match ls with
  | [] => []
  | l :: ls' => tokenize_line l line ++ tokenize ls' (line + 1)
  end.

Definition intro_md : string := "# Intro" +:+ nl +:+ "Hello <world>".
Definition double_md : string := "# One" +:+ nl +:+ "text" +:+ nl +:+ "# Two".
Definition notitle_md : string := "## Sub" +:+ nl +:+ "text".

Definition package : Package := {|
  DocBookRenderer_heading_tag token _ _ := ("section", Token.attrs token);
  DocBookRenderer_paragraph_open _ _ _ := "<para>";
  DocBookRenderer_paragraph_close _ _ _ := "</para>";
  DocBookRenderer_heading_markup p _ _ _ :=
    "<" +:+ p.1 +:+ attrs_str p.2 +:+ ">" +:+ nl +:+ "<title>";
  DocBookRenderer_rule token _ _ :=
    if String.eqb (Token.type token) "inline" then inr (escape (Token.content token))
    else if String.eqb (Token.type token) "heading_close" then inr ("</title>" +:+ nl)
    else inl (NotImplementedError "md token not supported yet" token);
  parse src := inr (tokenize (lines src "") 0);
  open_ path :=
    if String.eqb path "intro.md" then inr {| read := inr intro_md |}
    else if String.eqb path "double.md" then inr {| read := inr double_md |}
    else if String.eqb path "notitle.md" then inr {| read := inr notitle_md |}
    else inl (OSError ("No such file or directory: " +:+ path))
|}.

(** A level-1 and a level-2 heading token. *)
Definition h1 : Token.t := token "heading_open" "h1" 3 "".
Definition h2 : Token.t := token "heading_open" "h2" 5 "".

(** A fence with info string [python]. *)
Definition python_fence : Token.t :=
  {| Token.type := "fence"; Token.tag := "code"; Token.attrs := ∅;
     Token.map := Some (0, 3)%Z; Token.info := "python";
     Token.content := "if a < b and b > c: print(a & c)" +:+ nl |}.

(** A raw DocBook fence. *)
Definition docbook_fence : Token.t :=
  {| Token.type := "fence"; Token.tag := "code"; Token.attrs := ∅;
     Token.map := Some (0, 3)%Z; Token.info := "{=docbook}";
     Token.content := "<xi:include href=" +:+ dquote +:+ "options.xml" +:+ dquote +:+ " />" +:+ nl |}.
End Sample.

(** ** The command line

    The argparse actions that collect the sections of a manual, and the
    two drivers.  What they take from outside (the file system, [json],
    [pathlib], the converter's constructor) is the class [Host]; what
    they do to the file system is recorded as a list of effects. *)

Module CliSection.
(** The class [Section]: [id = None] and a fresh [chapters] list. *)
Record t : Type := mk { id : option string; chapters : list Path }.

Definition new : t := {| id := None; chapters := [] |}.

Definition set_id (value : string) (section : t) : t :=
  {| id := Some value; chapters := chapters section |}.

Definition extend (paths : list Path) (section : t) : t :=
  {| id := id section; chapters := chapters section ++ paths |}.
End CliSection.

Module Cli.

(** The attributes of the parsed [argparse.Namespace] that the drivers
    read; an option that was never given is [None]. *)
Record Namespace : Type := {
  format : string;
  manpage_urls : Path;
  outfile : Path;
  contents : option (list CliSection.t);
  chapter : option (list (Path * Path));
  section : option (list (Path * Path))
}.

(** The exceptions of this layer: those of argparse and of the
    interpreter, [RuntimeError(message, args)] of [run_cli], and the
    exceptions that come up from the converters and the host. *)
Inductive Error : Type :=
| ArgumentError (message : string)
| TypeError (message : string)
| FormatError (message : string) (args : Namespace)
| Raised (e : Exception).

(** What a run does to the file system, in order. *)
Inductive Effect : Type :=
| Mkdir (dir : Path)                    (* [dir.mkdir(parents=True, exist_ok=True)] *)
| Truncate (path : Path)                (* [open(path, 'w')] *)
| Write (path : Path) (text : string).  (* [f.write(text)] *)

(** The host of a run.  Each operation may depend on the effects the run
    has had so far; an operation that writes answers with the exception
    it raises, if any. *)
Class Host : Type := {
  (** [open(path, 'r')] *)
  host_open : list Effect -> Path -> Exception + File;
  (** [json.load(f)] *)
  json_load : File -> Exception + gmap string string;
  (** the package as the converter built for a man-page mapping sees it *)
  package_of : gmap string string -> list Effect -> Package;
  (** [Path(s)] *)
  pathlib_Path : string -> Path;
  (** [path.parent] *)
  parent : Path -> Path;
  mkdir : list Effect -> Path -> option Exception;
  open_w : list Effect -> Path -> option Exception;
  write : list Effect -> Path -> string -> option Exception
}.

(** [for x in l: body x] over a state [S], stopping at the first raise. *)
Fixpoint for_in {S A} (l : list A) (body : A -> S -> (Error + unit) * S) (s : S)
  : (Error + unit) * S :=
  match l with
  | [] => (inr tt, s)
  | x :: l' =>
      match body x s with
      | (inl e, s') => (inl e, s')
      | (inr _, s') => for_in l' body s'
      end
  end.

(** *** The actions

    Each [__call__] is a function of the value of the namespace attribute
    [dest] and of [values], to the new value of the attribute. *)

Definition SectionAction (sections : option (list CliSection.t))
  : Error + option (list CliSection.t) :=
  let sections := match sections with None => [] | Some sections => sections end in
  inr (Some (sections ++ [CliSection.new])).

(** [sections[-1].attr = ...]: raises on an empty list. *)
Definition update_last (f : CliSection.t -> CliSection.t)
  (sections : list CliSection.t) : Error + option (list CliSection.t) :=
  match last sections with
  | None => inl (Raised IndexError)
  | Some _ => inr (Some (alter f (length sections - 1) sections))
  end.

Definition SectionIDAction (values : string) (sections : option (list CliSection.t))
  : Error + option (list CliSection.t) :=
  match sections with
  | None => inl (ArgumentError "no active section")
  | Some sections => update_last (CliSection.set_id values) sections
  end.

Section Actions.
Context `{Host}.

Definition ChaptersAction (values : list string)
  (sections : option (list CliSection.t)) : Error + option (list CliSection.t) :=
  match sections with
  | None => inl (ArgumentError "no active section")
  | Some sections =>
      update_last (CliSection.extend (pathlib_Path <$> values)) sections
  end.

Definition SingleFileAction (values : list string)
  (chapters : option (list (Path * Path))) : Error + option (list (Path * Path)) :=
  let chapters :=
    match chapters with
    | None | Some [] => []
    | Some chapters => chapters
    end in
  match values !! 0, values !! 1 with
  | Some v0, Some v1 => inr (Some (chapters ++ [(pathlib_Path v0, pathlib_Path v1)]))
  | _, _ => inl (Raised IndexError)
  end.

(** The options of the [docbook-section] parser that share the
    destination [contents], as they occur on a command line. *)
Inductive SectionArg : Type :=
| arg_section
| arg_section_id (value : string)
| arg_chapters (values : list string).

(** Whether the option is [--section]. *)
Definition opens_section (arg : SectionArg) : bool :=
  match arg with
  | arg_section => true
  | _ => false
  end.

Definition call (arg : SectionArg) (sections : option (list CliSection.t))
  : Error + option (list CliSection.t) :=
  match arg with
  | arg_section => SectionAction sections
  | arg_section_id value => SectionIDAction value sections
  | arg_chapters values => ChaptersAction values sections
  end.

(** argparse calls the action of each option in command-line order, on
    the attribute the previous one left, and stops at the first raise. *)
Fixpoint parse_contents (argv : list SectionArg)
  (sections : option (list CliSection.t)) : Error + option (list CliSection.t) :=
  match argv with
  | [] => inr sections
  | arg :: argv' =>
      match call arg sections with
      | inl e => inl e
      | inr sections' => parse_contents argv' sections'
      end
  end.

(** Likewise for one of the destinations [chapter] and [section] of the
    [docbook-fragment] parser, each occurrence with its two values. *)
Fixpoint parse_files (argv : list (list string))
  (chapters : option (list (Path * Path))) : Error + option (list (Path * Path)) :=
  match argv with
  | [] => inr chapters
  | values :: argv' =>
      match SingleFileAction values chapters with
      | inl e => inl e
      | inr chapters' => parse_files argv' chapters'
      end
  end.

(** *** The drivers *)

(** [with open(path, 'w') as f: f.write(text)], also [path.write_text] *)
Definition write_file (path : Path) (text : string) (log : list Effect)
  : (Error + unit) * list Effect :=
  match open_w log path with
  | Some e => (inl (Raised e), log)
  | None =>
      let log := log ++ [Truncate path] in
      match write log path text with
      | Some e => (inl (Raised e), log)
      | None => (inr tt, log ++ [Write path text])
      end
  end.

(** The loop of [_run_cli_db_section] over the sections. *)
Definition add_sections (urls : gmap string string) (log : list Effect)
  (sections : list CliSection.t) : M BaseConverter.t unit :=
  for_each sections
    (fun section =>
       BaseConverter.add_section (H := package_of urls log)
         (CliSection.id section) (CliSection.chapters section)).

(** A section of the command line and the section it renders to: the
    same id, and the chapters that its paths render to, in order. *)
Definition renders_to (urls : gmap string string) (log : list Effect)
  (section : CliSection.t) (rendered : RenderedSection.t) : Prop :=
  RenderedSection.id rendered = CliSection.id section
  /\ Forall2
       (fun chpath chapter =>
          BaseConverter.chapter_outcome (H := package_of urls log) chpath
          = inr chapter)
       (CliSection.chapters section) (RenderedSection.chapters rendered).

Definition _run_cli_db_section (args : Namespace) (log : list Effect)
  : (Error + unit) * list Effect :=
  match host_open log (manpage_urls args) with
  | inl e => (inl (Raised e), log)
  | inr manpage_urls =>
      match json_load manpage_urls with
      | inl e => (inl (Raised e), log)
      | inr urls =>
          let md := BaseConverter.new in
          match contents args with
          | None => (inl (TypeError "'NoneType' object is not iterable"), log)
          | Some sections =>
              match add_sections urls log sections md with
              | (inl e, _) => (inl (Raised e), log)
              | (inr _, md) =>
                  write_file (outfile args) (DocBookSectionConverter.finalize md) log
              end
          end
      end
  end.

(** The body of the inner loop of [_run_cli_db_fragment]. *)
Definition write_fragment (urls : gmap string string) (kind : string)
  (job : Path * Path) (state : DocBookFragmentConverter.t * list Effect)
  : (Error + unit) * (DocBookFragmentConverter.t * list Effect) :=
  let '(md, log) := state in
  let '(target, file) := job in
  match DocBookFragmentConverter.convert (H := package_of urls log) file kind md with
  | (inl e, md) => (inl (Raised e), (md, log))
  | (inr converted, md) =>
      match mkdir log (parent target) with
      | Some e => (inl (Raised e), (md, log))
      | None =>
          let '(r, log) := write_file target converted (log ++ [Mkdir (parent target)]) in
          (r, (md, log))
      end
  end.

(** [getattr(args, kind)] for the two kinds. *)
Definition getattr_kind (args : Namespace) (kind : string)
  : option (list (Path * Path)) :=
  if String.eqb kind "chapter" then chapter args else section args.

Definition write_fragments (urls : gmap string string) (args : Namespace)
  (state : DocBookFragmentConverter.t * list Effect)
  : (Error + unit) * (DocBookFragmentConverter.t * list Effect) :=
  for_in ["chapter"; "section"]
    (fun kind state =>
       match getattr_kind args kind with
       | None => (inl (TypeError "'NoneType' object is not iterable"), state)
       | Some jobs => for_in jobs (write_fragment urls kind) state
       end)
    state.

Definition _run_cli_db_fragment (args : Namespace) (log : list Effect)
  : (Error + unit) * list Effect :=
  match host_open log (manpage_urls args) with
  | inl e => (inl (Raised e), log)
  | inr manpage_urls =>
      match json_load manpage_urls with
      | inl e => (inl (Raised e), log)
      | inr urls =>
          let md := DocBookFragmentConverter.new in
          let '(r, (_, log)) := write_fragments urls args (md, log) in
          (r, log)
      end
  end.

Definition run_cli (args : Namespace) (log : list Effect)
  : (Error + unit) * list Effect :=
  if String.eqb (format args) "docbook-section" then
    _run_cli_db_section args log
  else if String.eqb (format args) "docbook-fragment" then
    _run_cli_db_fragment args log
  else (inl (FormatError "format not hooked up" args), log).
End Actions.
End Cli.

(** ** A small host to run the drivers on *)

Module SampleHost.

(** The text after the last [/] dropped; [.] when there is no [/]. *)
Fixpoint after_slash (reversed : string) : option string :=
  match reversed with
  | EmptyString => None
  | String c rest => if Ascii.eqb c "/" then Some rest else after_slash rest
  end.

Definition dirname (path : Path) : Path :=
  match after_slash (String.rev path) with
  | Some reversed => String.rev reversed
  | None => "."
  end.

(** The sample package of above behind a man-page mapping read from
    [manpage-urls.json]; every path can be written. *)
Definition host : Cli.Host := {|
  Cli.host_open _ path :=
    if String.eqb path "manpage-urls.json" then inr {| read := inr "{}" |}
    else inl (OSError ("No such file or directory: " +:+ path));
  Cli.json_load f :=
    match read f with
    | inl e => inl e
    | inr text =>
        if String.eqb text "{}" then inr ∅ else inl (ParseError "Expecting value")
    end;
  Cli.package_of _ _ := Sample.package;
  Cli.pathlib_Path s := s;
  Cli.parent := dirname;
  Cli.mkdir _ _ := None;
  Cli.open_w _ _ := None;
  Cli.write _ _ _ := None
|}.

Definition section_args (contents : option (list CliSection.t)) : Cli.Namespace :=
  {| Cli.format := "docbook-section";
     Cli.manpage_urls := "manpage-urls.json";
     Cli.outfile := "out/manual.xml";
     Cli.contents := contents;
     Cli.chapter := None;
     Cli.section := None |}.

End SampleHost.

(** * Properties *)

(** Unfold the monad of a method down to the state function. *)
Ltac run :=
  unfold mbind, mret, M_bind, M_ret, raise, get, modify, lift, try_except, zoom;
  cbn beta iota.

(** Case analysis on the next type test of the dispatcher. *)
Ltac case_type E :=
  match goal with
  | |- context [String.eqb (Token.type ?t) ?s] =>
      destruct (String.eqb_spec (Token.type t) s) as [E|E]
  end.

(** ** Strings and escaping *)

Section Strings.
Import Py saxutils.

Lemma append_nil (b : string) : "" +:+ b = b.
Proof. reflexivity. Qed.

Lemma append_cons (x : ascii) (a b : string) :
  String x a +:+ b = String x (a +:+ b).
Proof. reflexivity. Qed.

Lemma append_assoc (a b c : string) : (a +:+ b) +:+ c = a +:+ (b +:+ c).
Proof.
  induction a as [|x a IH]; [reflexivity |].
  rewrite !append_cons. now rewrite IH.
Qed.

Lemma contains_append (c : ascii) (a b : string) :
  contains c (a +:+ b) = contains c a || contains c b.
Proof.
  induction a as [|x a IH]; [reflexivity |].
  rewrite append_cons. cbn [contains]. rewrite IH. now rewrite orb_assoc.
Qed.

Lemma replace_append (old : ascii) (new a b : string) :
  replace old new (a +:+ b) = replace old new a +:+ replace old new b.
Proof.
  induction a as [|x a IH]; [reflexivity |].
  rewrite append_cons. cbn [replace].
  destruct (Ascii.eqb x old); rewrite IH;
    [now rewrite append_assoc | reflexivity].
Qed.

(** Once [old] is replaced by text without it, it is gone. *)
Lemma replace_fresh (old : ascii) (new s : string) :
  contains old new = false -> contains old (replace old new s) = false.
Proof.
  intros Hnew. induction s as [|c s IH]; simpl; [reflexivity |].
  destruct (Ascii.eqb c old) eqn:E.
  - rewrite contains_append, Hnew, IH. reflexivity.
  - simpl. rewrite E, IH. reflexivity.
Qed.

(** Replacing [old] neither adds nor removes another character [c]
    that the replacement text does not contain. *)
Lemma contains_replace_ne (c old : ascii) (new s : string) :
  c <> old -> contains c new = false ->
  contains c (replace old new s) = contains c s.
Proof.
  intros Hne Hnew. induction s as [|x s IH]; simpl; [reflexivity |].
  destruct (Ascii.eqb_spec x old) as [->|Hx].
  - rewrite contains_append, Hnew, IH.
    destruct (Ascii.eqb_spec old c) as [->|_]; [contradiction | reflexivity].
  - simpl. now rewrite IH.
Qed.

Lemma replace_absent (old : ascii) (new s : string) :
  contains old s = false -> replace old new s = s.
Proof.
  induction s as [|x s IH]; simpl; [reflexivity |].
  intros [Hx Hs]%orb_false_elim. rewrite Hx. now rewrite IH.
Qed.

(** [escape] is the character-by-character entity encoding. *)
Lemma escape_entities (s : string) : escape s = entities s.
Proof.
  unfold escape. induction s as [|c s IH]; [reflexivity |].
  cbn [replace entities]. unfold entity.
  destruct (Ascii.eqb_spec c "&") as [->|Hamp].
  - rewrite !replace_append, IH. reflexivity.
  - cbn [replace]. destruct (Ascii.eqb_spec c ">") as [->|Hgt].
    + rewrite !replace_append, IH. reflexivity.
    + cbn [replace]. destruct (Ascii.eqb_spec c "<") as [->|Hlt];
        now rewrite IH.
Qed.

Lemma escape_no_lt (s : string) : contains "<" (escape s) = false.
Proof. unfold escape. now apply replace_fresh. Qed.

Lemma escape_no_gt (s : string) : contains ">" (escape s) = false.
Proof.
  unfold escape. rewrite contains_replace_ne by (discriminate || reflexivity).
  now apply replace_fresh.
Qed.

Lemma escape_attr_no_lt (s : string) : contains "<" (escape_attr s) = false.
Proof.
  unfold escape_attr.
  rewrite !contains_replace_ne by (discriminate || reflexivity).
  apply escape_no_lt.
Qed.

(** [quoteattr] wraps its text in one kind of quote that the text inside
    does not contain, and the text inside has no [<]. *)
Lemma quoteattr_quoted (s : string) :
  exists (q : ascii) (body : string),
    quoteattr s = String q body +:+ String q EmptyString
    /\ (q = "034"%char \/ q = "'"%char)
    /\ contains q body = false
    /\ contains "<" body = false.
Proof.
  unfold quoteattr.
  destruct (contains "034" (escape_attr s)) eqn:Hd.
  - destruct (contains "'" (escape_attr s)) eqn:Hs.
    + exists "034"%char, (replace "034" "&quot;" (escape_attr s)).
      split; [reflexivity |]. split; [now left |]. split.
      * now apply replace_fresh.
      * rewrite contains_replace_ne by (discriminate || reflexivity).
        apply escape_attr_no_lt.
    + exists "'"%char, (escape_attr s).
      split; [reflexivity |]. split; [now right |]. split; [exact Hs |].
      apply escape_attr_no_lt.
  - exists "034"%char, (escape_attr s).
    split; [reflexivity |]. split; [now left |]. split; [exact Hd |].
    apply escape_attr_no_lt.
Qed.

(** A plain identifier is quoted as it is. *)
Lemma quoteattr_plain (s : string) :
  contains "&" s = false -> contains ">" s = false -> contains "<" s = false ->
  contains "010" s = false -> contains "013" s = false ->
  contains "009" s = false -> contains "034" s = false ->
  quoteattr s = dquote +:+ s +:+ dquote.
Proof.
  intros Ha Hg Hl Hn Hr Ht Hq.
  unfold quoteattr, escape_attr, escape.
  rewrite (replace_absent "&") by assumption.
  rewrite (replace_absent ">") by assumption.
  rewrite (replace_absent "<") by assumption.
  rewrite (replace_absent "010") by assumption.
  rewrite (replace_absent "013") by assumption.
  rewrite (replace_absent "009") by assumption.
  now rewrite Hq.
Qed.
End Strings.

(** ** The block renderer *)

Section BlockRenderer.
Import Py saxutils ManualDocBookRenderer.

(** C4. A fence whose info string is exactly [{=docbook}] is its
    content, verbatim.  Any other fence is a [programlisting] whose
    body is the entity encoding of the content, with a [language]
    attribute, quoted by [quoteattr], exactly when the info string is
    not empty.  A code block is a [programlisting] without attribute
    around the entity encoding of its content.  The encoded body has
    no [<] and no [>] left, and the attribute value stands between two
    quotes of a kind it does not contain. *)
Theorem C4_fence_and_code_block (token : Token.t) :
  (Token.info token = "{=docbook}" -> fence token = Token.content token)
  /\ (Token.info token <> "{=docbook}" -> Token.info token <> "" ->
      fence token =
        "<programlisting language=" +:+ quoteattr (Token.info token) +:+ ">"
          +:+ nl +:+ entities (Token.content token) +:+ "</programlisting>")
  /\ (Token.info token = "" ->
      fence token =
        "<programlisting>" +:+ nl +:+ entities (Token.content token)
          +:+ "</programlisting>")
  /\ code_block token =
       "<programlisting>" +:+ nl +:+ entities (Token.content token)
         +:+ "</programlisting>"
  /\ contains "<" (entities (Token.content token)) = false
  /\ contains ">" (entities (Token.content token)) = false
  /\ (exists (q : ascii) (value : string),
        quoteattr (Token.info token) = String q value +:+ String q EmptyString
        /\ (q = "034"%char \/ q = "'"%char)
        /\ contains q value = false
        /\ contains "<" value = false).
Proof.
  unfold fence, code_block. rewrite <- escape_entities.
  repeat apply conj.
  - intros ->. reflexivity.
  - intros Hraw Hinfo.
    destruct (String.eqb_spec (Token.info token) "{=docbook}"); [contradiction |].
    destruct (String.eqb_spec (Token.info token) ""); [contradiction |].
    cbn [negb]. rewrite append_assoc. reflexivity.
  - intros ->. reflexivity.
  - reflexivity.
  - apply escape_no_lt.
  - apply escape_no_gt.
  - apply quoteattr_quoted.
Qed.

Lemma C4_fence_and_code_block_witness :
  fence Sample.python_fence =
    "<programlisting language=" +:+ dquote +:+ "python" +:+ dquote +:+ ">" +:+ nl
      +:+ "if a &lt; b and b &gt; c: print(a &amp; c)" +:+ nl
      +:+ "</programlisting>"
  /\ fence Sample.docbook_fence =
       "<xi:include href=" +:+ dquote +:+ "options.xml" +:+ dquote +:+ " />" +:+ nl.
Proof.
  split.
  - destruct (C4_fence_and_code_block Sample.python_fence) as (_ & H & _).
    rewrite H; [reflexivity | discriminate | discriminate].
  - destruct (C4_fence_and_code_block Sample.docbook_fence) as (H & _).
    rewrite H; reflexivity.
Defined.
End BlockRenderer.

(** ** The section assembler: [finalize] *)

Section Finalize.
Import Py saxutils DocBookSectionConverter.

(** The pieces one section contributes to the result list. *)
Lemma finalize_pieces (l : list RenderedSection.t) (acc : list string) :
  foldl
    (fun result section =>
       let id :=
         match RenderedSection.id section with
         | Some id => "id=" +:+ quoteattr id
         | None => ""
         end in
       let result := result ++ ["<section " +:+ id +:+ ">"] in
       let result := result ++ RenderedSection.chapters section in
       result ++ ["</section>"])
    acc l
  = acc ++
    flat_map
      (fun section =>
         match RenderedSection.id section with
         | Some id => "<section id=" +:+ quoteattr id +:+ ">"
         | None => "<section >"
         end :: RenderedSection.chapters section ++ ["</section>"])
      l.
Proof.
  revert acc. induction l as [|section l IH]; intros acc.
  - cbn. now rewrite app_nil_r.
  - cbn [foldl flat_map]. rewrite IH. cbv zeta.
    cbn [app]. rewrite <- !app_assoc. cbn [app]. do 2 f_equal.
    destruct (RenderedSection.id section); [rewrite append_assoc |]; reflexivity.
Qed.

(** C5, counterexample.  A section without id opens with ["<section >"],
    the blank of the format string kept: the output of one such section
    without chapters is not ["<section>"] followed by the closing tag. *)
Lemma C5_counterexample :
  finalize {| BaseConverter._sections := [RenderedSection.new None];
              BaseConverter.renderer := ManualDocBookRenderer.new |}
    = "<section >" +:+ nl +:+ "</section>"
  /\ finalize {| BaseConverter._sections := [RenderedSection.new None];
                 BaseConverter.renderer := ManualDocBookRenderer.new |}
    <> "<section>" +:+ nl +:+ "</section>".
Proof. split; [reflexivity | discriminate]. Qed.

(** C10. Without sections, [finalize] returns the empty string. *)
Theorem C10_finalize_no_sections :
  finalize BaseConverter.new = ""
  /\ forall r : ManualDocBookRenderer.t,
      finalize {| BaseConverter._sections := [];
                  BaseConverter.renderer := r |} = "".
Proof. split; [reflexivity | intros r; reflexivity]. Qed.
End Finalize.

(** ** The heading classifier *)

Section HeadingClassifier.
Context `{Package}.

Local Abbreviation chapter_tag := ManualDocBookRenderer._heading_tag.
Local Abbreviation fragment_tag := ManualFragmentDocBookRenderer._heading_tag.

Lemma dict_or_namespaces (attrs : gmap string string) :
  dict_or attrs ManualDocBookRenderer.namespaces =
    <["xmlns" := "http://docbook.org/ns/docbook"]>
      (<["xmlns:xlink" := "http://www.w3.org/1999/xlink"]> attrs).
Proof.
  unfold dict_or, ManualDocBookRenderer.namespaces.
  rewrite <- insert_union_l, <- insert_union_singleton_l. reflexivity.
Qed.

Lemma dict_or_xinclude (attrs : gmap string string) :
  dict_or attrs ManualFragmentDocBookRenderer.xinclude =
    <["xmlns:xi" := "http://www.w3.org/2001/XInclude"]> attrs.
Proof.
  unfold dict_or, ManualFragmentDocBookRenderer.xinclude.
  now rewrite <- insert_union_singleton_l.
Qed.

(** The three outcomes of the chapter renderer's classifier. *)
Lemma chapter_tag_first (token : Token.t) (tokens : list Token.t) (i : nat) :
  chapter_tag token tokens i {| ManualDocBookRenderer._title_seen := false |} =
    (inr ("chapter",
          dict_or (DocBookRenderer_heading_tag token tokens i).2
            ManualDocBookRenderer.namespaces),
     {| ManualDocBookRenderer._title_seen := true |}).
Proof.
  unfold chapter_tag.
  destruct (DocBookRenderer_heading_tag token tokens i) as [tag attrs].
  reflexivity.
Qed.

Lemma chapter_tag_later (token : Token.t) (tokens : list Token.t) (i : nat) :
  Token.tag token <> "h1" ->
  chapter_tag token tokens i {| ManualDocBookRenderer._title_seen := true |} =
    (inr (DocBookRenderer_heading_tag token tokens i),
     {| ManualDocBookRenderer._title_seen := true |}).
Proof.
  intros Hh1. unfold chapter_tag.
  destruct (DocBookRenderer_heading_tag token tokens i) as [tag attrs].
  run. cbn. destruct (String.eqb_spec (Token.tag token) "h1"); [contradiction |].
  reflexivity.
Qed.

Lemma chapter_tag_second (token : Token.t) (tokens : list Token.t) (i : nat) :
  Token.tag token = "h1" ->
  chapter_tag token tokens i {| ManualDocBookRenderer._title_seen := true |} =
    (inl match Token.map token with
         | Some (m0, m1) =>
             RuntimeError (ManualDocBookRenderer.second_title_message m0 m1)
               (Some token) None
         | None => AssertionError
         end,
     {| ManualDocBookRenderer._title_seen := true |}).
Proof.
  intros Hh1. unfold chapter_tag.
  destruct (DocBookRenderer_heading_tag token tokens i) as [tag attrs].
  run. cbn. rewrite Hh1. cbn.
  destruct (Token.map token) as [[m0 m1]|]; reflexivity.
Qed.
(** The same for the fragment renderer, which runs the classifier of its
    base first and then renames a level-1 heading to its root tag. *)
Lemma fragment_tag_first (token : Token.t) (tokens : list Token.t) (i : nat)
  (root : string) :
  Token.tag token = "h1" ->
  fragment_tag token tokens i
    {| ManualFragmentDocBookRenderer.super :=
         {| ManualDocBookRenderer._title_seen := false |};
       ManualFragmentDocBookRenderer._tag := root |} =
    (inr (root,
          dict_or
            (dict_or (DocBookRenderer_heading_tag token tokens i).2
               ManualDocBookRenderer.namespaces)
            ManualFragmentDocBookRenderer.xinclude),
     {| ManualFragmentDocBookRenderer.super :=
          {| ManualDocBookRenderer._title_seen := true |};
        ManualFragmentDocBookRenderer._tag := root |}).
Proof.
  intros Hh1. unfold fragment_tag. run. cbn.
  rewrite chapter_tag_first. cbn. rewrite Hh1. reflexivity.
Qed.

Lemma fragment_tag_first_lower (token : Token.t) (tokens : list Token.t) (i : nat)
  (root : string) :
  Token.tag token <> "h1" ->
  fragment_tag token tokens i
    {| ManualFragmentDocBookRenderer.super :=
         {| ManualDocBookRenderer._title_seen := false |};
       ManualFragmentDocBookRenderer._tag := root |} =
    (inr ("chapter",
          dict_or (DocBookRenderer_heading_tag token tokens i).2
            ManualDocBookRenderer.namespaces),
     {| ManualFragmentDocBookRenderer.super :=
          {| ManualDocBookRenderer._title_seen := true |};
        ManualFragmentDocBookRenderer._tag := root |}).
Proof.
  intros Hh1. unfold fragment_tag. run. cbn.
  rewrite chapter_tag_first. cbn.
  destruct (String.eqb_spec (Token.tag token) "h1"); [contradiction |].
  reflexivity.
Qed.

Lemma fragment_tag_later (token : Token.t) (tokens : list Token.t) (i : nat)
  (root : string) :
  Token.tag token <> "h1" ->
  fragment_tag token tokens i
    {| ManualFragmentDocBookRenderer.super :=
         {| ManualDocBookRenderer._title_seen := true |};
       ManualFragmentDocBookRenderer._tag := root |} =
    (inr (DocBookRenderer_heading_tag token tokens i),
     {| ManualFragmentDocBookRenderer.super :=
          {| ManualDocBookRenderer._title_seen := true |};
        ManualFragmentDocBookRenderer._tag := root |}).
Proof.
  intros Hh1. unfold fragment_tag. run. cbn.
  rewrite chapter_tag_later by assumption. cbn.
  destruct (DocBookRenderer_heading_tag token tokens i) as [tag attrs].
  destruct (String.eqb_spec (Token.tag token) "h1"); [contradiction |].
  reflexivity.
Qed.

Lemma fragment_tag_second (token : Token.t) (tokens : list Token.t) (i : nat)
  (root : string) :
  Token.tag token = "h1" ->
  fragment_tag token tokens i
    {| ManualFragmentDocBookRenderer.super :=
         {| ManualDocBookRenderer._title_seen := true |};
       ManualFragmentDocBookRenderer._tag := root |} =
    (inl match Token.map token with
         | Some (m0, m1) =>
             RuntimeError (ManualDocBookRenderer.second_title_message m0 m1)
               (Some token) None
         | None => AssertionError
         end,
     {| ManualFragmentDocBookRenderer.super :=
          {| ManualDocBookRenderer._title_seen := true |};
        ManualFragmentDocBookRenderer._tag := root |}).
Proof.
  intros Hh1. unfold fragment_tag. run. cbn.
  rewrite chapter_tag_second by assumption. reflexivity.
Qed.
End HeadingClassifier.

(** ** The token walk *)

Section Walk.
Context `{Package} {R : Type}.
Variable heading_tag :
  Token.t -> list Token.t -> nat -> M R (string * gmap string string).

Local Abbreviation rule := (Renderer.rule heading_tag).
Local Abbreviation render_from := (Renderer.render_from heading_tag).

(** A heading is rendered by classifying it: the walk fails there exactly
    when the classifier does. *)
Lemma rule_heading_open (tokens : list Token.t) (i : nat) (token : Token.t)
  (self : R) :
  Token.type token = "heading_open" ->
  rule tokens i token self =
    match heading_tag token tokens i self with
    | (inl e, self') => (inl e, self')
    | (inr p, self') =>
        (inr (DocBookRenderer_heading_markup p token tokens i), self')
    end.
Proof. intros Htype. unfold Renderer.rule. rewrite Htype. reflexivity. Qed.

(** The rules the manual renderer overrides are those of these types; every
    other token goes to the rule of the base class and leaves the
    renderer as it is. *)
Lemma rule_base (tokens : list Token.t) (i : nat) (token : Token.t) (self : R) :
  Token.type token ∉
    ["heading_open"; "paragraph_open"; "paragraph_close"; "code_block"; "fence"] ->
  rule tokens i token self =
    match DocBookRenderer_rule token tokens i with
    | inl e => (inl e, self)
    | inr out => (inr out, self)
    end.
Proof.
  intros Hty. unfold Renderer.rule.
  do 5 (case_type E;
        [exfalso; apply Hty; rewrite E; apply list_elem_of_In; cbn; tauto
        | clear E]).
  unfold lift. destruct (DocBookRenderer_rule token tokens i); reflexivity.
Qed.

Lemma rule_block (tokens : list Token.t) (i : nat) (token : Token.t) (self : R) :
  Token.type token ∈ ["paragraph_open"; "paragraph_close"; "code_block"; "fence"] ->
  exists out, rule tokens i token self = (inr out, self).
Proof.
  intros Hty. unfold Renderer.rule.
  apply list_elem_of_In in Hty. cbn [In] in Hty.
  destruct Hty as [<-|[<-|[<-|[<-|[]]]]]; eexists; reflexivity.
Qed.

(** The walk stops at the first rule that raises, with the renderer as
    that rule left it. *)
Lemma render_from_raises (tokens pre post : list Token.t) (token : Token.t)
  (i : nat) (self self1 self2 : R) (out : string) (e : Exception) :
  render_from tokens i pre self = (inr out, self1) ->
  rule tokens (i + length pre) token self1 = (inl e, self2) ->
  render_from tokens i (pre ++ token :: post) self = (inl e, self2).
Proof.
  revert i self out. induction pre as [|t pre IH]; intros i self out Hpre Hrule.
  - cbn in Hpre. injection Hpre as _ <-.
    rewrite Nat.add_0_r in Hrule.
    cbn [app Renderer.render_from]. run. now rewrite Hrule.
  - cbn [app Renderer.render_from] in *. revert Hpre. run.
    destruct (rule tokens i t self) as [[e1|o1] s1]; [discriminate |].
    destruct (render_from tokens (S i) pre s1) as [[e2|o2] s2] eqn:Hrest;
      [discriminate |].
    intros [= _ <-].
    rewrite (IH (S i) s1 o2 Hrest); [reflexivity |].
    cbn [length] in Hrule. now rewrite Nat.add_succ_comm.
Qed.

(** When no rule raises, neither does the walk. *)
Lemma render_from_returns (tokens rest : list Token.t) (i : nat) (self : R) :
  Forall
    (fun token => forall j self, exists out self',
         rule tokens j token self = (inr out, self'))
    rest ->
  exists out self', render_from tokens i rest self = (inr out, self').
Proof.
  intros Hall. revert i self.
  induction Hall as [|token rest Htoken _ IH]; intros i self.
  - now exists "", self.
  - cbn [Renderer.render_from]. run.
    destruct (Htoken i self) as (o1 & s1 & ->).
    destruct (IH (S i) s1) as (o2 & s2 & ->).
    now exists (o1 +:+ o2), s2.
Qed.
End Walk.

(** ** Claims on the heading classifier *)

Section ClassifierClaims.
Context `{Package}.

Local Abbreviation chapter_tag := ManualDocBookRenderer._heading_tag.
Local Abbreviation fragment_tag := ManualFragmentDocBookRenderer._heading_tag.
Local Abbreviation seen := ManualDocBookRenderer._title_seen.
Local Abbreviation fragment_seen := ManualFragmentDocBookRenderer._title_seen.

(** C1. A level-1 heading classified once the title has been seen is
    never given a tag: the classifier raises, in the chapter renderer and
    in the fragment renderer, and leaves the renderer as it was.  For a
    heading that carries its line range [[m0, m1]], as the tokenizer's
    headings do, the exception is the [RuntimeError] whose message names
    the lines [[m0..m1]], and a walk that reaches the heading with the
    title seen fails with that error. *)
Theorem C1_second_title_raises (token : Token.t) :
  Token.tag token = "h1" ->
  (forall tokens i self, seen self = true ->
     exists e, chapter_tag token tokens i self = (inl e, self))
  /\ (forall tokens i self, fragment_seen self = true ->
      exists e, fragment_tag token tokens i self = (inl e, self))
  /\ (forall m0 m1, Token.map token = Some (m0, m1) ->
      let error :=
        RuntimeError (ManualDocBookRenderer.second_title_message m0 m1)
          (Some token) None in
      (forall tokens i self, seen self = true ->
         chapter_tag token tokens i self = (inl error, self))
      /\ (forall tokens i self, fragment_seen self = true ->
          fragment_tag token tokens i self = (inl error, self))
      /\ (forall pre post out self self',
          Token.type token = "heading_open" ->
          Renderer.render_from chapter_tag (pre ++ token :: post) 0 pre self
            = (inr out, self') ->
          seen self' = true ->
          Renderer.render chapter_tag (pre ++ token :: post) self
            = (inl error, self'))
      /\ (forall pre post out self self',
          Token.type token = "heading_open" ->
          Renderer.render_from fragment_tag (pre ++ token :: post) 0 pre self
            = (inr out, self') ->
          fragment_seen self' = true ->
          Renderer.render fragment_tag (pre ++ token :: post) self
            = (inl error, self'))
      /\ (exists before after,
          ManualDocBookRenderer.second_title_message m0 m1 =
            before +:+ "lines [" +:+ Py.str_int m0 +:+ ".." +:+ Py.str_int m1
              +:+ "]" +:+ after)).
Proof.
  intros Hh1. split; [| split].
  - intros tokens i [b] Hb. cbn in Hb. subst b.
    rewrite chapter_tag_second by assumption. eauto.
  - intros tokens i [[b] root] Hb. cbn in Hb. subst b.
    rewrite fragment_tag_second by assumption. eauto.
  - intros m0 m1 Hmap error.
    assert (Hchapter : forall tokens i self, seen self = true ->
              chapter_tag token tokens i self = (inl error, self)).
    { intros tokens i [b] Hb. cbn in Hb. subst b.
      rewrite chapter_tag_second by assumption. now rewrite Hmap. }
    assert (Hfragment : forall tokens i self, fragment_seen self = true ->
              fragment_tag token tokens i self = (inl error, self)).
    { intros tokens i [[b] root] Hb. cbn in Hb. subst b.
      rewrite fragment_tag_second by assumption. now rewrite Hmap. }
    repeat apply conj.
    + exact Hchapter.
    + exact Hfragment.
    + intros pre post out self self' Htype Hpre Hseen.
      unfold Renderer.render.
      apply (render_from_raises _ _ _ _ _ _ _ _ _ _ _ Hpre).
      rewrite rule_heading_open by assumption. now rewrite Hchapter.
    + intros pre post out self self' Htype Hpre Hseen.
      unfold Renderer.render.
      apply (render_from_raises _ _ _ _ _ _ _ _ _ _ _ Hpre).
      rewrite rule_heading_open by assumption. now rewrite Hfragment.
    + exists ("only one title heading (# [text...]) allowed per manual chapter "
              +:+ "but found a second in "),
        (". please remove all such headings except the first, split your "
              +:+ "chapters, or demote the subsequent headings to (##) or lower.").
      unfold ManualDocBookRenderer.second_title_message.
      rewrite !append_assoc. reflexivity.
Qed.

(** C2. A level-1 heading classified while the title has not been seen
    sets [_title_seen] and is given the title container: tag ["chapter"]
    with [xmlns] and [xmlns:xlink] added to the heading's attributes in
    the chapter renderer; the root tag [_tag] with [xmlns], [xmlns:xlink]
    and [xmlns:xi] added in the fragment renderer. *)
Theorem C2_first_title (token : Token.t) (tokens : list Token.t) (i : nat) :
  Token.tag token = "h1" ->
  let attrs := (DocBookRenderer_heading_tag token tokens i).2 in
  let chapter_attrs :=
    <["xmlns" := "http://docbook.org/ns/docbook"]>
      (<["xmlns:xlink" := "http://www.w3.org/1999/xlink"]> attrs) in
  (forall self, seen self = false ->
     chapter_tag token tokens i self =
       (inr ("chapter", chapter_attrs),
        {| ManualDocBookRenderer._title_seen := true |}))
  /\ (forall self, fragment_seen self = false ->
      fragment_tag token tokens i self =
        (inr (ManualFragmentDocBookRenderer._tag self,
              <["xmlns:xi" := "http://www.w3.org/2001/XInclude"]> chapter_attrs),
         {| ManualFragmentDocBookRenderer.super :=
              {| ManualDocBookRenderer._title_seen := true |};
            ManualFragmentDocBookRenderer._tag :=
              ManualFragmentDocBookRenderer._tag self |})).
Proof.
  intros Hh1 attrs chapter_attrs. split.
  - intros [b] Hb. cbn in Hb. subst b.
    rewrite chapter_tag_first, dict_or_namespaces. reflexivity.
  - intros [[b] root] Hb. cbn in Hb. subst b.
    rewrite fragment_tag_first by assumption.
    rewrite dict_or_xinclude, dict_or_namespaces. reflexivity.
Qed.

(** What the classifier does with a heading of level 2 to 6.  Once the
    title has been seen the heading keeps its natural tag and attributes,
    nothing injected, and the renderer is left as it was.  While no title
    has been seen the title branch is taken whatever the level: tag
    ["chapter"] with [xmlns] and [xmlns:xlink] injected, [_title_seen]
    set.  The classifier raises on no such heading, so a walk over
    tokens without level-1 heading returns when the base rules render
    the other tokens. *)
Lemma lower_heading_tag :
  (forall token tokens i,
     Token.tag token ∈ ["h2"; "h3"; "h4"; "h5"; "h6"] ->
     (forall self, seen self = true ->
        chapter_tag token tokens i self =
          (inr (DocBookRenderer_heading_tag token tokens i), self))
     /\ (forall self, fragment_seen self = true ->
         fragment_tag token tokens i self =
           (inr (DocBookRenderer_heading_tag token tokens i), self))
     /\ (forall self, seen self = false ->
         chapter_tag token tokens i self =
           (inr ("chapter",
                 <["xmlns" := "http://docbook.org/ns/docbook"]>
                   (<["xmlns:xlink" := "http://www.w3.org/1999/xlink"]>
                      (DocBookRenderer_heading_tag token tokens i).2)),
            {| ManualDocBookRenderer._title_seen := true |}))
     /\ (forall self, fragment_seen self = false ->
         fragment_tag token tokens i self =
           (inr ("chapter",
                 <["xmlns" := "http://docbook.org/ns/docbook"]>
                   (<["xmlns:xlink" := "http://www.w3.org/1999/xlink"]>
                      (DocBookRenderer_heading_tag token tokens i).2)),
            {| ManualFragmentDocBookRenderer.super :=
                 {| ManualDocBookRenderer._title_seen := true |};
               ManualFragmentDocBookRenderer._tag :=
                 ManualFragmentDocBookRenderer._tag self |})))
  /\ (forall tokens,
      Forall
        (fun token =>
           (Token.type token = "heading_open" /\
            Token.tag token ∈ ["h2"; "h3"; "h4"; "h5"; "h6"])
           \/ Token.type token ∈
                ["paragraph_open"; "paragraph_close"; "code_block"; "fence"]
           \/ ((Token.type token ∉
                  ["heading_open"; "paragraph_open"; "paragraph_close";
                   "code_block"; "fence"]) /\
               (forall j, exists out,
                   DocBookRenderer_rule token tokens j = inr out)))
        tokens ->
      (forall self, exists out self',
          Renderer.render chapter_tag tokens self = (inr out, self'))
      /\ (forall self, exists out self',
          Renderer.render fragment_tag tokens self = (inr out, self'))).
Proof.
  assert (Hlower : forall token,
             Token.tag token ∈ ["h2"; "h3"; "h4"; "h5"; "h6"] ->
             Token.tag token <> "h1").
  { intros token Hin E. rewrite E in Hin.
    apply list_elem_of_In in Hin. cbn in Hin. intuition discriminate. }
  split.
  - intros token tokens i Hin. apply Hlower in Hin. repeat split.
    + intros [b] Hb. cbn in Hb. subst b. now apply chapter_tag_later.
    + intros [[b] root] Hb. cbn in Hb. subst b. now apply fragment_tag_later.
    + intros [b] Hb. cbn in Hb. subst b.
      rewrite chapter_tag_first, dict_or_namespaces. reflexivity.
    + intros [[b] root] Hb. cbn in Hb. subst b.
      rewrite fragment_tag_first_lower by assumption.
      rewrite dict_or_namespaces. reflexivity.
  - intros tokens Hall. split; intros self; unfold Renderer.render;
      apply render_from_returns; (eapply Forall_impl; [exact Hall |]);
      intros token Hcases j s; cbv beta in Hcases.
    + destruct Hcases as [[Htype Hin]|[Hblock|[Hbase Hrule]]].
      * rewrite rule_heading_open by assumption. apply Hlower in Hin.
        destruct s as [[|]].
        -- rewrite chapter_tag_later by assumption. eauto.
        -- rewrite chapter_tag_first. eauto.
      * destruct (rule_block chapter_tag tokens j token s Hblock) as [out ->].
        eauto.
      * rewrite rule_base by assumption. destruct (Hrule j) as [out ->]. eauto.
    + destruct Hcases as [[Htype Hin]|[Hblock|[Hbase Hrule]]].
      * rewrite rule_heading_open by assumption. apply Hlower in Hin.
        destruct s as [[[|]] root].
        -- rewrite fragment_tag_later by assumption. eauto.
        -- rewrite fragment_tag_first_lower by assumption. eauto.
      * destruct (rule_block fragment_tag tokens j token s Hblock) as [out ->].
        eauto.
      * rewrite rule_base by assumption. destruct (Hrule j) as [out ->]. eauto.
Qed.

(** C6, amended.  In the fragment renderer with root tag ["section"], the
    first level-1 heading is tagged ["section"] and carries the whole
    namespace set of the chapter renderer, [xmlns] and [xmlns:xlink],
    with [xmlns:xi] added to it; the two attribute sets differ by that
    attribute whenever the heading has no [xmlns:xi] of its own. *)
Theorem C6_fragment_root_namespaces (token : Token.t) (tokens : list Token.t)
  (i : nat) (self : ManualFragmentDocBookRenderer.t) :
  Token.tag token = "h1" ->
  fragment_seen self = false ->
  ManualFragmentDocBookRenderer._tag self = "section" ->
  let attrs := (DocBookRenderer_heading_tag token tokens i).2 in
  let chapter_attrs :=
    <["xmlns" := "http://docbook.org/ns/docbook"]>
      (<["xmlns:xlink" := "http://www.w3.org/1999/xlink"]> attrs) in
  let fragment_attrs :=
    <["xmlns:xi" := "http://www.w3.org/2001/XInclude"]> chapter_attrs in
  (chapter_tag token tokens i (ManualFragmentDocBookRenderer.super self)).1
    = inr ("chapter", chapter_attrs)
  /\ (fragment_tag token tokens i self).1 = inr ("section", fragment_attrs)
  /\ fragment_attrs !! "xmlns" = Some "http://docbook.org/ns/docbook"
  /\ fragment_attrs !! "xmlns:xlink" = Some "http://www.w3.org/1999/xlink"
  /\ fragment_attrs !! "xmlns:xi" = Some "http://www.w3.org/2001/XInclude"
  /\ (attrs !! "xmlns:xi" = None -> fragment_attrs <> chapter_attrs).
Proof.
  intros Hh1 Hseen Hroot attrs chapter_attrs fragment_attrs.
  destruct self as [[b] root]. cbn in Hseen, Hroot. subst b root.
  repeat split.
  - cbn [ManualFragmentDocBookRenderer.super].
    rewrite chapter_tag_first, dict_or_namespaces. reflexivity.
  - rewrite fragment_tag_first by assumption.
    rewrite dict_or_xinclude, dict_or_namespaces. reflexivity.
  - unfold fragment_attrs, chapter_attrs.
    rewrite lookup_insert_ne by discriminate. apply lookup_insert_eq.
  - unfold fragment_attrs, chapter_attrs.
    do 2 rewrite lookup_insert_ne by discriminate. apply lookup_insert_eq.
  - apply lookup_insert_eq.
  - intros Hnone Heq.
    apply (f_equal (fun m : gmap string string => m !! "xmlns:xi")) in Heq.
    unfold fragment_attrs, chapter_attrs in Heq.
    rewrite lookup_insert_eq in Heq.
    do 2 rewrite lookup_insert_ne in Heq by discriminate.
    rewrite Hnone in Heq. discriminate.
Qed.
End ClassifierClaims.

Lemma C1_second_title_raises_witness :
  ManualDocBookRenderer._heading_tag (H := Sample.package) Sample.h1 [Sample.h1] 0
    {| ManualDocBookRenderer._title_seen := true |}
  = (inl (RuntimeError (ManualDocBookRenderer.second_title_message 3 4)
            (Some Sample.h1) None),
     {| ManualDocBookRenderer._title_seen := true |}).
Proof.
  exact (proj1
           (proj2 (proj2
              (C1_second_title_raises (H := Sample.package) Sample.h1 eq_refl))
              3%Z 4%Z eq_refl)
           [Sample.h1] 0 {| ManualDocBookRenderer._title_seen := true |} eq_refl).
Defined.

Lemma C2_first_title_witness :
  ManualDocBookRenderer._heading_tag (H := Sample.package) Sample.h1 [Sample.h1] 0
    ManualDocBookRenderer.new
  = (inr ("chapter",
          <["xmlns" := "http://docbook.org/ns/docbook"]>
            (<["xmlns:xlink" := "http://www.w3.org/1999/xlink"]> ∅)),
     {| ManualDocBookRenderer._title_seen := true |}).
Proof.
  exact (proj1
           (C2_first_title (H := Sample.package) Sample.h1 [Sample.h1] 0 eq_refl)
           ManualDocBookRenderer.new eq_refl).
Defined.

(** C3, the code at the failing input.  A level-2 heading classified
    before any title does not keep its natural tag ["section"] and its
    attributes: the chapter renderer tags it ["chapter"] and injects
    [xmlns] and [xmlns:xlink]; the fragment renderer with root tag
    ["section"] does the same, so that the root of the fragment is
    ["chapter"], without [xmlns:xi]; and in the chapter [## Sub] followed
    by [# Late] the walk raises the second-title error on the only
    level-1 heading. *)
Theorem C3_first_heading_taken_for_title :
  DocBookRenderer_heading_tag (Package := Sample.package) Sample.h2 [Sample.h2] 0
    = ("section", ∅)
  /\ ManualDocBookRenderer._heading_tag (H := Sample.package)
       Sample.h2 [Sample.h2] 0 ManualDocBookRenderer.new
     = (inr ("chapter", ManualDocBookRenderer.namespaces),
        {| ManualDocBookRenderer._title_seen := true |})
  /\ ManualDocBookRenderer.namespaces !! "xmlns"
     = Some "http://docbook.org/ns/docbook"
  /\ ManualDocBookRenderer.namespaces !! "xmlns:xlink"
     = Some "http://www.w3.org/1999/xlink"
  /\ (ManualDocBookRenderer._heading_tag (H := Sample.package)
        Sample.h2 [Sample.h2] 0 ManualDocBookRenderer.new).1
     <> inr (DocBookRenderer_heading_tag (Package := Sample.package)
               Sample.h2 [Sample.h2] 0)
  /\ ManualFragmentDocBookRenderer._heading_tag (H := Sample.package)
       Sample.h2 [Sample.h2] 0
       {| ManualFragmentDocBookRenderer.super := ManualDocBookRenderer.new;
          ManualFragmentDocBookRenderer._tag := "section" |}
     = (inr ("chapter", ManualDocBookRenderer.namespaces),
        {| ManualFragmentDocBookRenderer.super :=
             {| ManualDocBookRenderer._title_seen := true |};
           ManualFragmentDocBookRenderer._tag := "section" |})
  /\ ManualDocBookRenderer.namespaces !! "xmlns:xi" = None
  /\ (Renderer.render (H := Sample.package)
        (ManualDocBookRenderer._heading_tag (H := Sample.package))
        (Sample.block "h2" 0 "Sub" ++ Sample.block "h1" 1 "Late")
        ManualDocBookRenderer.new).1
     = inl (RuntimeError (ManualDocBookRenderer.second_title_message 1 2)
              (Some (Sample.token "heading_open" "h1" 1 "")) None).
Proof.
  repeat apply conj; try reflexivity.
  discriminate.
Qed.

(** C6, counterexample.  With root tag ["section"], the first level-1
    heading does not receive [xmlns:xi] alone: [xmlns] and [xmlns:xlink]
    are in its attributes too. *)
Lemma C6_counterexample :
  (ManualFragmentDocBookRenderer._heading_tag (H := Sample.package)
     Sample.h1 [Sample.h1] 0
     {| ManualFragmentDocBookRenderer.super := ManualDocBookRenderer.new;
        ManualFragmentDocBookRenderer._tag := "section" |}).1
  = inr ("section",
         <["xmlns:xi" := "http://www.w3.org/2001/XInclude"]>
           (<["xmlns" := "http://docbook.org/ns/docbook"]>
              (<["xmlns:xlink" := "http://www.w3.org/1999/xlink"]> ∅)))
  /\ (<["xmlns:xi" := "http://www.w3.org/2001/XInclude"]>
        (<["xmlns" := "http://docbook.org/ns/docbook"]>
           (<["xmlns:xlink" := "http://www.w3.org/1999/xlink"]> ∅))
      : gmap string string) !! "xmlns"
     = Some "http://docbook.org/ns/docbook"
  /\ (<["xmlns:xi" := "http://www.w3.org/2001/XInclude"]>
        (<["xmlns" := "http://docbook.org/ns/docbook"]>
           (<["xmlns:xlink" := "http://www.w3.org/1999/xlink"]> ∅))
      : gmap string string)
     <> {[ "xmlns:xi" := "http://www.w3.org/2001/XInclude" ]}.
Proof.
  split; [| split].
  - rewrite fragment_tag_first by reflexivity.
    cbn [fst]. rewrite dict_or_xinclude, dict_or_namespaces. reflexivity.
  - reflexivity.
  - intros Heq.
    apply (f_equal (fun m : gmap string string => m !! "xmlns")) in Heq.
    discriminate Heq.
Qed.

Lemma C6_fragment_root_namespaces_witness :
  (ManualFragmentDocBookRenderer._heading_tag (H := Sample.package)
     Sample.h1 [Sample.h1] 0
     {| ManualFragmentDocBookRenderer.super := ManualDocBookRenderer.new;
        ManualFragmentDocBookRenderer._tag := "section" |}).1
  = inr ("section",
         <["xmlns:xi" := "http://www.w3.org/2001/XInclude"]>
           (<["xmlns" := "http://docbook.org/ns/docbook"]>
              (<["xmlns:xlink" := "http://www.w3.org/1999/xlink"]> ∅))).
Proof.
  exact (proj1 (proj2
           (C6_fragment_root_namespaces (H := Sample.package)
              Sample.h1 [Sample.h1] 0
              {| ManualFragmentDocBookRenderer.super := ManualDocBookRenderer.new;
                 ManualFragmentDocBookRenderer._tag := "section" |}
              eq_refl eq_refl eq_refl))).
Defined.

(** ** The section assembler: [add_section] *)

Section AddSection.
Context `{Package}.

Local Abbreviation chapter_error chpath e :=
  (RuntimeError ("failed to render manual chapter " +:+ chpath) None (Some e)).

(** One iteration of the loop, on a converter that has a section: its
    result is decided by [chapter_outcome], whatever the renderer held
    before, and only the last section can change. *)
Lemma add_section_chapter_run (chpath : Path) (self : BaseConverter.t) :
  BaseConverter._sections self <> [] ->
  exists r : ManualDocBookRenderer.t,
    BaseConverter.add_section_chapter chpath self =
      match BaseConverter.chapter_outcome chpath with
      | inl e =>
          (inl (chapter_error chpath e), BaseConverter.set_renderer r self)
      | inr chapter =>
          (inr tt,
           BaseConverter.append_chapter chapter (BaseConverter.set_renderer r self))
      end.
Proof.
  intros Hsections.
  unfold BaseConverter.add_section_chapter, BaseConverter.chapter_outcome.
  unfold BaseConverter.last_section, BaseConverter._render. run.
  destruct (open_ chpath) as [e|f].
  - exists (BaseConverter.renderer self). destruct self; reflexivity.
  - cbn. destruct (last (BaseConverter._sections self)) as [section|] eqn:Hlast.
    2:{ apply last_None in Hlast. contradiction. }
    cbn. destruct (read f) as [e|src]; cbn.
    + now exists {| ManualDocBookRenderer._title_seen := false |}.
    + destruct (Renderer._render ManualDocBookRenderer._heading_tag src
                  {| ManualDocBookRenderer._title_seen := false |})
        as [[e|chapter] r]; cbn; now exists r.
Qed.
Lemma append_chapter_last (chapter : string) (l : list RenderedSection.t)
  (section : RenderedSection.t) (r : ManualDocBookRenderer.t) :
  BaseConverter.append_chapter chapter
    {| BaseConverter._sections := l ++ [section]; BaseConverter.renderer := r |}
  = {| BaseConverter._sections := l ++ [RenderedSection.append chapter section];
       BaseConverter.renderer := r |}.
Proof.
  unfold BaseConverter.append_chapter, BaseConverter.set_sections. cbn. f_equal.
  rewrite length_app. cbn [length].
  replace (length l + 1 - 1) with (length l + 0) by lia.
  now rewrite alter_app_r.
Qed.

(** The loop over chapters that all render: their strings are appended to
    the last section, in order. *)
Lemma add_section_loop_returns (chapters : list Path) (outs : list string) :
  Forall2 (fun chpath chapter => BaseConverter.chapter_outcome chpath = inr chapter)
    chapters outs ->
  forall l section r, exists r',
    for_each chapters BaseConverter.add_section_chapter
      {| BaseConverter._sections := l ++ [section]; BaseConverter.renderer := r |}
    = (inr tt,
       {| BaseConverter._sections :=
            l ++ [{| RenderedSection.id := RenderedSection.id section;
                     RenderedSection.chapters :=
                       RenderedSection.chapters section ++ outs |}];
          BaseConverter.renderer := r' |}).
Proof.
  induction 1 as [|chpath chapter chapters outs Hout _ IH]; intros l section r.
  - exists r. cbn. rewrite app_nil_r. now destruct section.
  - cbn [for_each]. run.
    destruct (add_section_chapter_run chpath
                {| BaseConverter._sections := l ++ [section];
                   BaseConverter.renderer := r |}) as [r1 ->].
    { cbn. now destruct l. }
    rewrite Hout. unfold BaseConverter.set_renderer. cbn.
    rewrite append_chapter_last.
    destruct (IH l (RenderedSection.append chapter section) r1) as [r' ->].
    exists r'. cbn. now rewrite <- app_assoc.
Qed.

(** The loop with a chapter that fails after [pre]: it stops there, with
    the strings of [pre] appended and nothing for the failing chapter. *)
Lemma add_section_loop_raises (pre post : list Path) (ch : Path)
  (outs : list string) (e : Exception) :
  Forall2 (fun chpath chapter => BaseConverter.chapter_outcome chpath = inr chapter)
    pre outs ->
  BaseConverter.chapter_outcome ch = inl e ->
  forall l section r, exists r',
    for_each (pre ++ ch :: post) BaseConverter.add_section_chapter
      {| BaseConverter._sections := l ++ [section]; BaseConverter.renderer := r |}
    = (inl (chapter_error ch e),
       {| BaseConverter._sections :=
            l ++ [{| RenderedSection.id := RenderedSection.id section;
                     RenderedSection.chapters :=
                       RenderedSection.chapters section ++ outs |}];
          BaseConverter.renderer := r' |}).
Proof.
  intros Hpre Hch.
  induction Hpre as [|chpath chapter pre outs Hout _ IH]; intros l section r.
  - cbn [app for_each]. run.
    destruct (add_section_chapter_run ch
                {| BaseConverter._sections := l ++ [section];
                   BaseConverter.renderer := r |}) as [r1 ->].
    { cbn. now destruct l. }
    rewrite Hch. exists r1. unfold BaseConverter.set_renderer. cbn.
    rewrite app_nil_r. now destruct section.
  - cbn [app for_each]. run.
    destruct (add_section_chapter_run chpath
                {| BaseConverter._sections := l ++ [section];
                   BaseConverter.renderer := r |}) as [r1 ->].
    { cbn. now destruct l. }
    rewrite Hout. unfold BaseConverter.set_renderer. cbn.
    rewrite append_chapter_last.
    destruct (IH l (RenderedSection.append chapter section) r1) as [r' ->].
    exists r'. cbn. now rewrite <- app_assoc.
Qed.

(** Either every chapter renders, or there is a first one that fails. *)
Lemma chapter_outcomes (chapters : list Path) :
  (exists outs,
      Forall2 (fun chpath chapter => BaseConverter.chapter_outcome chpath = inr chapter)
        chapters outs)
  \/ (exists pre ch post outs e,
        chapters = pre ++ ch :: post
        /\ Forall2
             (fun chpath chapter => BaseConverter.chapter_outcome chpath = inr chapter)
             pre outs
        /\ BaseConverter.chapter_outcome ch = inl e).
Proof.
  induction chapters as [|chpath chapters IH].
  - left. exists []. constructor.
  - destruct (BaseConverter.chapter_outcome chpath) as [e|chapter] eqn:Hout.
    + right. exists [], chpath, chapters, [], e. repeat split; [constructor | exact Hout].
    + destruct IH as [[outs Hall]|(pre & ch & post & outs & e & -> & Hpre & Hch)].
      * left. exists (chapter :: outs). now constructor.
      * right. exists (chpath :: pre), ch, post, (chapter :: outs), e.
        repeat split; [now constructor | exact Hch].
Qed.
Lemma add_section_unfold (id : option string) (chapters : list Path)
  (self : BaseConverter.t) :
  BaseConverter.add_section id chapters self =
    for_each chapters BaseConverter.add_section_chapter
      {| BaseConverter._sections :=
           BaseConverter._sections self ++ [RenderedSection.new id];
         BaseConverter.renderer := BaseConverter.renderer self |}.
Proof. reflexivity. Qed.

(** C9. When the chapters [pre] render to [outs] and the next chapter [ch]
    fails, [add_section] raises the error of [ch] and leaves the
    converter with the new section appended, holding exactly [outs]:
    as many strings as chapters came before, nothing for [ch]. *)
Theorem C9_add_section_not_atomic (id : option string) (pre post : list Path)
  (ch : Path) (outs : list string) (e : Exception) (self : BaseConverter.t) :
  Forall2 (fun chpath chapter => BaseConverter.chapter_outcome chpath = inr chapter)
    pre outs ->
  BaseConverter.chapter_outcome ch = inl e ->
  length outs = length pre
  /\ exists r : ManualDocBookRenderer.t,
      BaseConverter.add_section id (pre ++ ch :: post) self =
        (inl (chapter_error ch e),
         {| BaseConverter._sections :=
              BaseConverter._sections self
                ++ [{| RenderedSection.id := id; RenderedSection.chapters := outs |}];
            BaseConverter.renderer := r |}).
Proof.
  intros Hpre Hch. split.
  - symmetry. exact (Forall2_length _ _ _ Hpre).
  - rewrite add_section_unfold.
    exact (add_section_loop_raises pre post ch outs e Hpre Hch
             (BaseConverter._sections self) (RenderedSection.new id)
             (BaseConverter.renderer self)).
Qed.
End AddSection.

Lemma C9_add_section_not_atomic_witness :
  exists r : ManualDocBookRenderer.t,
    BaseConverter.add_section (H := Sample.package) None
      ["intro.md"; "double.md"; "notitle.md"] BaseConverter.new
    = (inl (RuntimeError "failed to render manual chapter double.md" None
              (Some (RuntimeError (ManualDocBookRenderer.second_title_message 2 3)
                       (Some (Sample.token "heading_open" "h1" 2 "")) None))),
       {| BaseConverter._sections :=
            [{| RenderedSection.id := None;
                RenderedSection.chapters :=
                  [ "<chapter xmlns:xlink=" +:+ Py.dquote
                      +:+ "http://www.w3.org/1999/xlink" +:+ Py.dquote
                      +:+ " xmlns=" +:+ Py.dquote
                      +:+ "http://docbook.org/ns/docbook" +:+ Py.dquote +:+ ">"
                      +:+ Py.nl +:+ "<title>Intro</title>" +:+ Py.nl
                      +:+ "<para>" +:+ Py.nl +:+ " Hello &lt;world&gt;"
                      +:+ Py.nl +:+ "</para>" ] |}];
          BaseConverter.renderer := r |}).
Proof.
  refine (proj2
            (C9_add_section_not_atomic (H := Sample.package) None
               ["intro.md"] ["notitle.md"] "double.md" _ _ BaseConverter.new _ _)).
  - apply Forall2_cons_2; [vm_compute; reflexivity | apply Forall2_nil_2].
  - vm_compute. reflexivity.
Defined.

(** ** The chapter and fragment boundary *)

Section Boundary.
Context `{Package}.

Local Abbreviation chapter_error chpath e :=
  (RuntimeError ("failed to render manual chapter " +:+ chpath) None (Some e)).
Local Abbreviation fragment_error tag file e :=
  (RuntimeError ("failed to render manual " +:+ tag +:+ " " +:+ file) None (Some e)).

(** [convert] is decided by [fragment_outcome], whatever the renderer held
    before the call. *)
Lemma convert_run (file : Path) (tag : string) (self : DocBookFragmentConverter.t) :
  exists self',
    DocBookFragmentConverter.convert file tag self =
      (match DocBookFragmentConverter.fragment_outcome file tag with
       | inl e => inl (fragment_error tag file e)
       | inr out => inr out
       end, self').
Proof.
  unfold DocBookFragmentConverter.convert, DocBookFragmentConverter.fragment_outcome.
  unfold DocBookFragmentConverter._render. run.
  destruct (open_ file) as [e|f]; [eauto |].
  cbn. destruct (read f) as [e|src]; cbn; [eauto |].
  destruct (Renderer._render ManualFragmentDocBookRenderer._heading_tag src _)
    as [[e|out] r]; cbn; eauto.
Qed.

(** [add_section] is decided by the outcomes of its chapters. *)
Lemma add_section_run (id : option string) (chapters : list Path)
  (self : BaseConverter.t) :
  (exists outs self',
      Forall2 (fun chpath chapter => BaseConverter.chapter_outcome chpath = inr chapter)
        chapters outs
      /\ BaseConverter.add_section id chapters self = (inr tt, self')
      /\ BaseConverter._sections self' =
           BaseConverter._sections self
             ++ [{| RenderedSection.id := id; RenderedSection.chapters := outs |}])
  \/ (exists pre ch post outs e self',
        chapters = pre ++ ch :: post
        /\ Forall2
             (fun chpath chapter => BaseConverter.chapter_outcome chpath = inr chapter)
             pre outs
        /\ BaseConverter.chapter_outcome ch = inl e
        /\ BaseConverter.add_section id chapters self
           = (inl (chapter_error ch e), self')
        /\ BaseConverter._sections self' =
             BaseConverter._sections self
               ++ [{| RenderedSection.id := id; RenderedSection.chapters := outs |}]).
Proof.
  destruct (chapter_outcomes chapters)
    as [[outs Hall]|(pre & ch & post & outs & e & -> & Hpre & Hch)].
  - left. rewrite add_section_unfold.
    destruct (add_section_loop_returns chapters outs Hall
                (BaseConverter._sections self) (RenderedSection.new id)
                (BaseConverter.renderer self)) as [r ->].
    eexists outs, _. split; [exact Hall | split; reflexivity].
  - right. rewrite add_section_unfold.
    destruct (add_section_loop_raises pre post ch outs e Hpre Hch
                (BaseConverter._sections self) (RenderedSection.new id)
                (BaseConverter.renderer self)) as [r ->].
    eexists pre, ch, post, outs, e, _.
    split; [reflexivity |]. split; [exact Hpre |]. split; [exact Hch |].
    split; reflexivity.
Qed.
Lemma add_section_single (id : option string) (chpath : Path)
  (self : BaseConverter.t) :
  exists r : ManualDocBookRenderer.t,
    BaseConverter.add_section id [chpath] self =
      match BaseConverter.chapter_outcome chpath with
      | inl e =>
          (inl (chapter_error chpath e),
           {| BaseConverter._sections :=
                BaseConverter._sections self ++ [RenderedSection.new id];
              BaseConverter.renderer := r |})
      | inr chapter =>
          (inr tt,
           {| BaseConverter._sections :=
                BaseConverter._sections self
                  ++ [{| RenderedSection.id := id;
                         RenderedSection.chapters := [chapter] |}];
              BaseConverter.renderer := r |})
      end.
Proof.
  rewrite add_section_unfold.
  destruct (BaseConverter.chapter_outcome chpath) as [e|chapter] eqn:Hout.
  - assert (Hpre : Forall2
                      (fun chpath chapter =>
                         BaseConverter.chapter_outcome chpath = inr chapter)
                      [] []) by constructor.
    exact (add_section_loop_raises [] [] chpath [] e Hpre Hout
             (BaseConverter._sections self) (RenderedSection.new id)
             (BaseConverter.renderer self)).
  - assert (Hall : Forall2
                      (fun chpath chapter =>
                         BaseConverter.chapter_outcome chpath = inr chapter)
                      [chpath] [chapter]) by (repeat constructor; exact Hout).
    exact (add_section_loop_returns [chpath] [chapter] Hall
             (BaseConverter._sections self) (RenderedSection.new id)
             (BaseConverter.renderer self)).
Qed.

(** C7. Whatever [open], [read], the tokenizer or a rule raises while a
    chapter or a fragment is rendered leaves [add_section] or [convert]
    as a [RuntimeError] that names the operation and the path and has the
    exception as its cause; [add_section] raises nothing else, and returns
    only when every chapter rendered. *)
Theorem C7_failures_wrapped_at_boundary :
  (forall (chpath : Path) (self : BaseConverter.t) (e : Exception),
      BaseConverter._sections self <> [] ->
      BaseConverter.chapter_outcome chpath = inl e ->
      exists self',
        BaseConverter.add_section_chapter chpath self
        = (inl (chapter_error chpath e), self'))
  /\ (forall id chapters self e' self',
        BaseConverter.add_section id chapters self = (inl e', self') ->
        exists chpath e,
          chpath ∈ chapters
          /\ BaseConverter.chapter_outcome chpath = inl e
          /\ e' = chapter_error chpath e)
  /\ (forall id chapters self self',
        BaseConverter.add_section id chapters self = (inr tt, self') ->
        Forall
          (fun chpath => exists chapter,
               BaseConverter.chapter_outcome chpath = inr chapter)
          chapters)
  /\ (forall file tag self e,
        DocBookFragmentConverter.fragment_outcome file tag = inl e ->
        exists self',
          DocBookFragmentConverter.convert file tag self
          = (inl (fragment_error tag file e), self'))
  /\ (forall file tag self out,
        DocBookFragmentConverter.fragment_outcome file tag = inr out ->
        exists self',
          DocBookFragmentConverter.convert file tag self = (inr out, self'))
  /\ (forall path e,
        open_ path = inl e ->
        BaseConverter.chapter_outcome path = inl e
        /\ forall tag, DocBookFragmentConverter.fragment_outcome path tag = inl e)
  /\ (forall path f e,
        open_ path = inr f -> read f = inl e ->
        BaseConverter.chapter_outcome path = inl e
        /\ forall tag, DocBookFragmentConverter.fragment_outcome path tag = inl e)
  /\ (forall path f src e,
        open_ path = inr f -> read f = inr src -> parse src = inl e ->
        BaseConverter.chapter_outcome path = inl e
        /\ forall tag, DocBookFragmentConverter.fragment_outcome path tag = inl e)
  /\ (forall path f src tokens e r,
        open_ path = inr f -> read f = inr src -> parse src = inr tokens ->
        Renderer.render ManualDocBookRenderer._heading_tag tokens
          {| ManualDocBookRenderer._title_seen := false |} = (inl e, r) ->
        BaseConverter.chapter_outcome path = inl e)
  /\ (forall path tag f src tokens e r,
        open_ path = inr f -> read f = inr src -> parse src = inr tokens ->
        Renderer.render ManualFragmentDocBookRenderer._heading_tag tokens
          {| ManualFragmentDocBookRenderer.super :=
               {| ManualDocBookRenderer._title_seen := false |};
             ManualFragmentDocBookRenderer._tag := tag |} = (inl e, r) ->
        DocBookFragmentConverter.fragment_outcome path tag = inl e).
Proof.
  repeat apply conj.
  - intros chpath self e Hsections Hout.
    destruct (add_section_chapter_run chpath self Hsections) as [r ->].
    rewrite Hout. eauto.
  - intros id chapters self e' self' Hraise.
    destruct (add_section_run id chapters self)
      as [(outs & s & _ & Hrun & _)
         |(pre & ch & post & outs & e & s & -> & _ & Hch & Hrun & _)];
      rewrite Hrun in Hraise; [discriminate |].
    injection Hraise as <- _. exists ch, e.
    split; [| split; [exact Hch | reflexivity]].
    apply list_elem_of_In, in_or_app. right. now left.
  - intros id chapters self self' Hreturn.
    destruct (add_section_run id chapters self)
      as [(outs & s & Hall & _)
         |(pre & ch & post & outs & e & s & _ & _ & _ & Hrun & _)].
    + clear Hreturn. induction Hall; constructor; eauto.
    + rewrite Hrun in Hreturn. discriminate.
  - intros file tag self e Hout.
    destruct (convert_run file tag self) as [self' ->]. rewrite Hout. eauto.
  - intros file tag self out Hout.
    destruct (convert_run file tag self) as [self' ->]. rewrite Hout. eauto.
  - intros path e Hopen.
    unfold BaseConverter.chapter_outcome, DocBookFragmentConverter.fragment_outcome.
    now rewrite Hopen.
  - intros path f e Hopen Hread.
    unfold BaseConverter.chapter_outcome, DocBookFragmentConverter.fragment_outcome.
    now rewrite Hopen, Hread.
  - intros path f src e Hopen Hread Hparse.
    unfold BaseConverter.chapter_outcome, DocBookFragmentConverter.fragment_outcome.
    rewrite Hopen, Hread. unfold Renderer._render. run.
    now rewrite Hparse.
  - intros path f src tokens e r Hopen Hread Hparse Hrender.
    unfold BaseConverter.chapter_outcome.
    rewrite Hopen, Hread. unfold Renderer._render. run.
    rewrite Hparse. cbn. now rewrite Hrender.
  - intros path tag f src tokens e r Hopen Hread Hparse Hrender.
    unfold DocBookFragmentConverter.fragment_outcome.
    rewrite Hopen, Hread. unfold Renderer._render. run.
    rewrite Hparse. cbn. now rewrite Hrender.
Qed.

(** C8. The result of [convert] does not depend on the renderer it starts
    from, so a second call on the same file and tag repeats the first;
    likewise the chapter that [add_section] renders and appends does not
    depend on the converter it is added to, and a chapter listed twice is
    appended as the same string twice. *)
Theorem C8_render_is_repeatable :
  (forall file tag self1 self2,
      (DocBookFragmentConverter.convert file tag self1).1
      = (DocBookFragmentConverter.convert file tag self2).1)
  /\ (forall file tag self,
        (DocBookFragmentConverter.convert file tag
           (DocBookFragmentConverter.convert file tag self).2).1
        = (DocBookFragmentConverter.convert file tag self).1)
  /\ (forall id chpath self1 self2,
        (BaseConverter.add_section id [chpath] self1).1
        = (BaseConverter.add_section id [chpath] self2).1
        /\ last (BaseConverter._sections
                   (BaseConverter.add_section id [chpath] self1).2)
           = last (BaseConverter._sections
                     (BaseConverter.add_section id [chpath] self2).2))
  /\ (forall id chpath self self',
        BaseConverter.add_section id [chpath; chpath] self = (inr tt, self') ->
        exists chapter,
          BaseConverter._sections self' =
            BaseConverter._sections self
              ++ [{| RenderedSection.id := id;
                     RenderedSection.chapters := [chapter; chapter] |}]).
Proof.
  assert (Hconvert : forall file tag self1 self2,
             (DocBookFragmentConverter.convert file tag self1).1
             = (DocBookFragmentConverter.convert file tag self2).1).
  { intros file tag self1 self2.
    destruct (convert_run file tag self1) as [s1 ->].
    destruct (convert_run file tag self2) as [s2 ->]. reflexivity. }
  repeat apply conj.
  - exact Hconvert.
  - intros file tag self. apply Hconvert.
  - intros id chpath self1 self2.
    destruct (add_section_single id chpath self1) as [r1 ->].
    destruct (add_section_single id chpath self2) as [r2 ->].
    destruct (BaseConverter.chapter_outcome chpath) as [e|chapter]; cbn;
      rewrite !last_snoc; split; reflexivity.
  - intros id chpath self self' Hreturn.
    destruct (add_section_run id [chpath; chpath] self)
      as [(outs & s & Hall & Hrun & Hsections)
         |(pre & ch & post & outs & e & s & _ & _ & _ & Hrun & _)];
      rewrite Hrun in Hreturn; [| discriminate].
    injection Hreturn as <-.
    apply Forall2_cons_inv_l in Hall as (c1 & outs1 & Hc1 & Hall & ->).
    apply Forall2_cons_inv_l in Hall as (c2 & outs2 & Hc2 & Hall & ->).
    apply Forall2_nil_inv_l in Hall as ->.
    rewrite Hc1 in Hc2. injection Hc2 as <-.
    now exists c1.
Qed.
End Boundary.

Lemma C7_failures_wrapped_at_boundary_witness :
  exists self',
    DocBookFragmentConverter.convert (H := Sample.package) "nope.md" "section"
      DocBookFragmentConverter.new
    = (inl (RuntimeError "failed to render manual section nope.md" None
              (Some (OSError "No such file or directory: nope.md"))), self').
Proof.
  destruct (C7_failures_wrapped_at_boundary (H := Sample.package))
    as (_ & _ & _ & Hfragment & _).
  exact (Hfragment "nope.md" "section" DocBookFragmentConverter.new
           (OSError "No such file or directory: nope.md") eq_refl).
Defined.

Lemma C8_render_is_repeatable_witness :
  exists chapter,
    BaseConverter._sections
      (BaseConverter.add_section (H := Sample.package) (Some "ch-intro")
         ["intro.md"; "intro.md"] BaseConverter.new).2
    = [{| RenderedSection.id := Some "ch-intro";
          RenderedSection.chapters := [chapter; chapter] |}].
Proof.
  destruct (C8_render_is_repeatable (H := Sample.package)) as (_ & _ & _ & Htwice).
  exact (Htwice (Some "ch-intro") "intro.md" BaseConverter.new _ eq_refl).
Defined.

(** ** The assembled manual *)

Section Manual.
Context `{Package}.
Import Py saxutils.

(** C5, amended.  [finalize] joins with newlines, for each section in
    insertion order, an opening tag, ["<section >"] without id and
    ["<section id=...>"] with the id quoted by [quoteattr], the
    section's chapters in insertion order, and ["</section>"].  On a
    section without id holding two chapters followed by a section
    ["ch-intro"] holding one, built by two calls of [add_section] on a new
    converter, it yields the text spelled out below. *)
Theorem C5_finalize_layout :
  (forall self : BaseConverter.t,
      DocBookSectionConverter.finalize self =
        join nl
          (flat_map
             (fun section =>
                match RenderedSection.id section with
                | Some id => "<section id=" +:+ quoteattr id +:+ ">"
                | None => "<section >"
                end :: RenderedSection.chapters section ++ ["</section>"])
             (BaseConverter._sections self)))
  /\ (forall (c1 c2 c3 : string) (r : ManualDocBookRenderer.t),
        DocBookSectionConverter.finalize
          {| BaseConverter._sections :=
               [ {| RenderedSection.id := None;
                    RenderedSection.chapters := [c1; c2] |};
                 {| RenderedSection.id := Some "ch-intro";
                    RenderedSection.chapters := [c3] |} ];
             BaseConverter.renderer := r |}
        = "<section >" +:+ nl +:+ c1 +:+ nl +:+ c2 +:+ nl +:+ "</section>" +:+ nl
            +:+ "<section id=" +:+ dquote +:+ "ch-intro" +:+ dquote +:+ ">" +:+ nl
            +:+ c3 +:+ nl +:+ "</section>")
  /\ (forall (p1 p2 p3 : Path) (c1 c2 c3 : string),
        BaseConverter.chapter_outcome p1 = inr c1 ->
        BaseConverter.chapter_outcome p2 = inr c2 ->
        BaseConverter.chapter_outcome p3 = inr c3 ->
        exists self1 self2,
          BaseConverter.add_section None [p1; p2] BaseConverter.new = (inr tt, self1)
          /\ BaseConverter.add_section (Some "ch-intro") [p3] self1 = (inr tt, self2)
          /\ DocBookSectionConverter.finalize self2
             = "<section >" +:+ nl +:+ c1 +:+ nl +:+ c2 +:+ nl +:+ "</section>" +:+ nl
                 +:+ "<section id=" +:+ dquote +:+ "ch-intro" +:+ dquote +:+ ">" +:+ nl
                 +:+ c3 +:+ nl +:+ "</section>")
  /\ (forall id : string,
        exists (q : ascii) (value : string),
          quoteattr id = String q value +:+ String q EmptyString
          /\ (q = "034"%char \/ q = "'"%char)
          /\ contains q value = false
          /\ contains "<" value = false).
Proof.
  assert (Hexample : forall (c1 c2 c3 : string) (r : ManualDocBookRenderer.t),
             DocBookSectionConverter.finalize
               {| BaseConverter._sections :=
                    [ {| RenderedSection.id := None;
                         RenderedSection.chapters := [c1; c2] |};
                      {| RenderedSection.id := Some "ch-intro";
                         RenderedSection.chapters := [c3] |} ];
                  BaseConverter.renderer := r |}
             = "<section >" +:+ nl +:+ c1 +:+ nl +:+ c2 +:+ nl +:+ "</section>"
                 +:+ nl +:+ "<section id=" +:+ dquote +:+ "ch-intro" +:+ dquote
                 +:+ ">" +:+ nl +:+ c3 +:+ nl +:+ "</section>").
  { intros c1 c2 c3 r. unfold DocBookSectionConverter.finalize.
    rewrite finalize_pieces.
    cbn [flat_map app RenderedSection.id RenderedSection.chapters
           BaseConverter._sections join String.concat].
    rewrite (quoteattr_plain "ch-intro") by reflexivity.
    rewrite !append_assoc. reflexivity. }
  repeat apply conj.
  - intros self. unfold DocBookSectionConverter.finalize.
    now rewrite finalize_pieces.
  - exact Hexample.
  - intros p1 p2 p3 c1 c2 c3 H1 H2 H3.
    assert (Hfirst : Forall2
                       (fun chpath chapter =>
                          BaseConverter.chapter_outcome chpath = inr chapter)
                       [p1; p2] [c1; c2]) by (repeat constructor; assumption).
    assert (Hsecond : Forall2
                        (fun chpath chapter =>
                           BaseConverter.chapter_outcome chpath = inr chapter)
                        [p3] [c3]) by (repeat constructor; assumption).
    destruct (add_section_loop_returns [p1; p2] [c1; c2] Hfirst
                [] (RenderedSection.new None) ManualDocBookRenderer.new)
      as [r1 Hrun1].
    destruct (add_section_loop_returns [p3] [c3] Hsecond
                [{| RenderedSection.id := None;
                    RenderedSection.chapters := [c1; c2] |}]
                (RenderedSection.new (Some "ch-intro")) r1)
      as [r2 Hrun2].
    eexists _, _. rewrite !add_section_unfold. split; [exact Hrun1 |].
    split; [exact Hrun2 |]. apply Hexample.
  - apply quoteattr_quoted.
Qed.
End Manual.

Lemma C5_finalize_layout_witness :
  exists self1 self2 c1 c2,
    BaseConverter.add_section (H := Sample.package) None
      ["intro.md"; "notitle.md"] BaseConverter.new = (inr tt, self1)
    /\ BaseConverter.add_section (H := Sample.package) (Some "ch-intro")
         ["intro.md"] self1 = (inr tt, self2)
    /\ DocBookSectionConverter.finalize self2
       = "<section >" +:+ Py.nl +:+ c1 +:+ Py.nl +:+ c2 +:+ Py.nl
           +:+ "</section>" +:+ Py.nl
           +:+ "<section id=" +:+ Py.dquote +:+ "ch-intro" +:+ Py.dquote +:+ ">"
           +:+ Py.nl +:+ c1 +:+ Py.nl +:+ "</section>".
Proof.
  destruct (C5_finalize_layout (H := Sample.package)) as (_ & _ & Hmanual & _).
  destruct (Hmanual "intro.md" "notitle.md" "intro.md" _ _ _
              eq_refl eq_refl eq_refl) as (self1 & self2 & Hrun).
  exact (ex_intro _ self1 (ex_intro _ self2 (ex_intro _ _ (ex_intro _ _ Hrun)))).
Defined.

(** ** Concrete runs on the sample package *)

Section Runs.
Import Py.
#[local] Existing Instance Sample.package.

Example second_title_message_lines :
  ManualDocBookRenderer.second_title_message 3 4 =
    "only one title heading (# [text...]) allowed per manual chapter but found a second in lines [3..4]. please remove all such headings except the first, split your chapters, or demote the subsequent headings to (##) or lower.".
Proof. vm_compute. reflexivity. Qed.

(** A fragment with one title: the root is the caller's tag and carries
    the three namespaces. *)
Example convert_intro :
  (DocBookFragmentConverter.convert "intro.md" "section"
     DocBookFragmentConverter.new).1
  = inr ("<section xmlns:xi=" +:+ dquote +:+ "http://www.w3.org/2001/XInclude" +:+ dquote
         +:+ " xmlns:xlink=" +:+ dquote +:+ "http://www.w3.org/1999/xlink" +:+ dquote
         +:+ " xmlns=" +:+ dquote +:+ "http://docbook.org/ns/docbook" +:+ dquote +:+ ">"
         +:+ nl +:+ "<title>Intro</title>" +:+ nl
         +:+ "<para>" +:+ nl +:+ " Hello &lt;world&gt;" +:+ nl +:+ "</para>").
Proof. vm_compute. reflexivity. Qed.

(** A fragment with two titles: the structural error, wrapped. *)
Example convert_double :
  (DocBookFragmentConverter.convert "double.md" "chapter"
     DocBookFragmentConverter.new).1
  = inl (RuntimeError "failed to render manual chapter double.md" None
           (Some (RuntimeError (ManualDocBookRenderer.second_title_message 2 3)
                    (Some (Sample.token "heading_open" "h1" 2 "")) None))).
Proof. vm_compute. reflexivity. Qed.

(** A chapter that opens with a level-2 heading: that heading is the
    title. *)
Example convert_notitle :
  (DocBookFragmentConverter.convert "notitle.md" "section"
     DocBookFragmentConverter.new).1
  = inr ("<chapter xmlns:xlink=" +:+ dquote +:+ "http://www.w3.org/1999/xlink" +:+ dquote
         +:+ " xmlns=" +:+ dquote +:+ "http://docbook.org/ns/docbook" +:+ dquote +:+ ">"
         +:+ nl +:+ "<title>Sub</title>" +:+ nl
         +:+ "<para>" +:+ nl +:+ " text" +:+ nl +:+ "</para>").
Proof. vm_compute. reflexivity. Qed.

(** The walk does depend on [_title_seen]: without the reset of
    [add_section] and [convert], a renderer that has seen a title rejects
    the title of the next chapter. *)
Example render_depends_on_title_seen :
  (exists out,
      (Renderer._render ManualDocBookRenderer._heading_tag Sample.intro_md
         {| ManualDocBookRenderer._title_seen := false |}).1 = inr out)
  /\ (Renderer._render ManualDocBookRenderer._heading_tag Sample.intro_md
        {| ManualDocBookRenderer._title_seen := true |}).1
     = inl (RuntimeError (ManualDocBookRenderer.second_title_message 0 1)
              (Some (Sample.token "heading_open" "h1" 0 "")) None).
Proof. split; [eexists |]; vm_compute; reflexivity. Qed.
End Runs.

(** * Further properties *)

(** ** [add_section] beyond its failure *)

Section AddSectionMore.
Context `{Package}.

(** X1.
    When every chapter renders, [add_section] returns and has appended one
    section that carries the id and the rendered chapters in the order of
    the paths; the sections already there are untouched. *)
Theorem add_section_returns (id : option string) (chapters : list Path)
  (outs : list string) (self : BaseConverter.t) :
  Forall2 (fun chpath chapter => BaseConverter.chapter_outcome chpath = inr chapter)
    chapters outs ->
  exists r : ManualDocBookRenderer.t,
    BaseConverter.add_section id chapters self =
      (inr tt,
       {| BaseConverter._sections :=
            BaseConverter._sections self
              ++ [{| RenderedSection.id := id; RenderedSection.chapters := outs |}];
          BaseConverter.renderer := r |}).
Proof.
  intros Hall. rewrite add_section_unfold.
  exact (add_section_loop_returns chapters outs Hall
           (BaseConverter._sections self) (RenderedSection.new id)
           (BaseConverter.renderer self)).
Qed.

(** X2.
    Whatever happens, [add_section] appends exactly one section, with the
    id it was given, and changes no earlier section; that section holds
    one string per chapter exactly when the call returned, and fewer
    when it raised. *)
Theorem add_section_appends_one (id : option string) (chapters : list Path)
  (self : BaseConverter.t) :
  exists outs : list string,
    BaseConverter._sections (BaseConverter.add_section id chapters self).2
    = BaseConverter._sections self
        ++ [{| RenderedSection.id := id; RenderedSection.chapters := outs |}]
    /\ length outs <= length chapters
    /\ (length outs = length chapters
        <-> (BaseConverter.add_section id chapters self).1 = inr tt).
Proof.
  destruct (add_section_run id chapters self)
    as [(outs & s & Hall & Hrun & Hsections)
       |(pre & ch & post & outs & e & s & -> & Hpre & _ & Hrun & Hsections)];
    rewrite Hrun; cbn [fst snd]; exists outs.
  - apply Forall2_length in Hall.
    split; [exact Hsections |]. split; [lia |]. split; [reflexivity | lia].
  - apply Forall2_length in Hpre. rewrite length_app. cbn [length].
    split; [exact Hsections |]. split; [lia |].
    split; [lia | discriminate].
Qed.
End AddSectionMore.

Lemma add_section_returns_witness :
  exists r : ManualDocBookRenderer.t,
    BaseConverter.add_section (H := Sample.package) (Some "ch-intro")
      ["intro.md"; "notitle.md"] BaseConverter.new
    = (inr tt,
       {| BaseConverter._sections :=
            [{| RenderedSection.id := Some "ch-intro";
                RenderedSection.chapters :=
                  [ "<chapter xmlns:xlink=" +:+ Py.dquote
                      +:+ "http://www.w3.org/1999/xlink" +:+ Py.dquote
                      +:+ " xmlns=" +:+ Py.dquote
                      +:+ "http://docbook.org/ns/docbook" +:+ Py.dquote +:+ ">"
                      +:+ Py.nl +:+ "<title>Intro</title>" +:+ Py.nl
                      +:+ "<para>" +:+ Py.nl +:+ " Hello &lt;world&gt;"
                      +:+ Py.nl +:+ "</para>";
                    "<chapter xmlns:xlink=" +:+ Py.dquote
                      +:+ "http://www.w3.org/1999/xlink" +:+ Py.dquote
                      +:+ " xmlns=" +:+ Py.dquote
                      +:+ "http://docbook.org/ns/docbook" +:+ Py.dquote +:+ ">"
                      +:+ Py.nl +:+ "<title>Sub</title>" +:+ Py.nl
                      +:+ "<para>" +:+ Py.nl +:+ " text"
                      +:+ Py.nl +:+ "</para>" ] |}];
          BaseConverter.renderer := r |}).
Proof.
  refine (add_section_returns (H := Sample.package) (Some "ch-intro")
            ["intro.md"; "notitle.md"] _ BaseConverter.new _).
  repeat (apply Forall2_cons_2; [vm_compute; reflexivity |]).
  apply Forall2_nil_2.
Defined.

(** ** When the classifier raises, and what it leaves behind *)

Section ClassifierMore.
Context `{Package}.

Local Abbreviation chapter_tag := ManualDocBookRenderer._heading_tag.
Local Abbreviation fragment_tag := ManualFragmentDocBookRenderer._heading_tag.
Local Abbreviation seen := ManualDocBookRenderer._title_seen.
Local Abbreviation fragment_seen := ManualFragmentDocBookRenderer._title_seen.

(** A classifier that returns has set [_title_seen]. *)
Lemma chapter_tag_returns_seen (token : Token.t) (tokens : list Token.t) (i : nat)
  (self self' : ManualDocBookRenderer.t) (p : string * gmap string string) :
  chapter_tag token tokens i self = (inr p, self') -> seen self' = true.
Proof.
  destruct self as [[|]].
  - destruct (String.eqb_spec (Token.tag token) "h1") as [Hh1|Hh1].
    + rewrite chapter_tag_second by assumption. discriminate.
    + rewrite chapter_tag_later by assumption. now intros [= _ <-].
  - rewrite chapter_tag_first. now intros [= _ <-].
Qed.

Lemma fragment_tag_returns_seen (token : Token.t) (tokens : list Token.t) (i : nat)
  (self self' : ManualFragmentDocBookRenderer.t) (p : string * gmap string string) :
  fragment_tag token tokens i self = (inr p, self') ->
  fragment_seen self' = true
  /\ ManualFragmentDocBookRenderer._tag self'
     = ManualFragmentDocBookRenderer._tag self.
Proof.
  destruct self as [[[|]] root].
  - destruct (String.eqb_spec (Token.tag token) "h1") as [Hh1|Hh1].
    + rewrite fragment_tag_second by assumption. discriminate.
    + rewrite fragment_tag_later by assumption. now intros [= _ <-].
  - destruct (String.eqb_spec (Token.tag token) "h1") as [Hh1|Hh1].
    + rewrite fragment_tag_first by assumption. now intros [= _ <-].
    + rewrite fragment_tag_first_lower by assumption. now intros [= _ <-].
Qed.

(** X3.
    The classifier raises exactly on a level-1 heading met after the
    title, in both renderers, and then leaves the renderer as it was;
    whenever it returns, [_title_seen] is set, so the flag never goes
    back to false within a render, and the fragment renderer keeps its
    root tag. *)
Theorem heading_tag_raises_iff (token : Token.t) (tokens : list Token.t) (i : nat) :
  (forall self,
      (exists e, (chapter_tag token tokens i self).1 = inl e)
      <-> seen self = true /\ Token.tag token = "h1")
  /\ (forall self,
        (exists e, (fragment_tag token tokens i self).1 = inl e)
        <-> fragment_seen self = true /\ Token.tag token = "h1")
  /\ (forall self p self',
        chapter_tag token tokens i self = (inr p, self') -> seen self' = true)
  /\ (forall self p self',
        fragment_tag token tokens i self = (inr p, self') ->
        fragment_seen self' = true
        /\ ManualFragmentDocBookRenderer._tag self'
           = ManualFragmentDocBookRenderer._tag self)
  /\ (forall self e self',
        chapter_tag token tokens i self = (inl e, self') -> self' = self)
  /\ (forall self e self',
        fragment_tag token tokens i self = (inl e, self') -> self' = self).
Proof.
  repeat apply conj.
  - intros [[|]]; cbn [ManualDocBookRenderer._title_seen].
    + destruct (String.eqb_spec (Token.tag token) "h1") as [Hh1|Hh1].
      * rewrite chapter_tag_second by assumption. cbn. split; eauto.
      * rewrite chapter_tag_later by assumption. cbn.
        split; [intros [e He]; discriminate | intros [_ ?]; contradiction].
    + rewrite chapter_tag_first. cbn.
      split; [intros [e He]; discriminate | intros [? _]; discriminate].
  - intros [[[|]] root]; cbn.
    + destruct (String.eqb_spec (Token.tag token) "h1") as [Hh1|Hh1].
      * rewrite fragment_tag_second by assumption. cbn. split; eauto.
      * rewrite fragment_tag_later by assumption. cbn.
        split; [intros [e He]; discriminate | intros [_ ?]; contradiction].
    + destruct (String.eqb_spec (Token.tag token) "h1") as [Hh1|Hh1].
      * rewrite fragment_tag_first by assumption. cbn.
        split; [intros [e He]; discriminate | intros [? _]; discriminate].
      * rewrite fragment_tag_first_lower by assumption. cbn.
        split; [intros [e He]; discriminate | intros [? _]; discriminate].
  - intros self p self'. apply chapter_tag_returns_seen.
  - intros self p self'. apply fragment_tag_returns_seen.
  - intros [[|]] e self'.
    + destruct (String.eqb_spec (Token.tag token) "h1") as [Hh1|Hh1].
      * rewrite chapter_tag_second by assumption. now intros [= _ <-].
      * rewrite chapter_tag_later by assumption. discriminate.
    + rewrite chapter_tag_first. discriminate.
  - intros [[[|]] root] e self'.
    + destruct (String.eqb_spec (Token.tag token) "h1") as [Hh1|Hh1].
      * rewrite fragment_tag_second by assumption. now intros [= _ <-].
      * rewrite fragment_tag_later by assumption. discriminate.
    + destruct (String.eqb_spec (Token.tag token) "h1") as [Hh1|Hh1].
      * rewrite fragment_tag_first by assumption. discriminate.
      * rewrite fragment_tag_first_lower by assumption. discriminate.
Qed.
End ClassifierMore.

Lemma heading_tag_raises_iff_witness :
  exists e,
    (ManualDocBookRenderer._heading_tag (H := Sample.package)
       Sample.h1 [Sample.h1] 0
       {| ManualDocBookRenderer._title_seen := true |}).1 = inl e.
Proof.
  apply (proj1 (heading_tag_raises_iff (H := Sample.package)
                  Sample.h1 [Sample.h1] 0)).
  split; reflexivity.
Defined.

(** ** Where a title can stand in a chapter that renders *)

Section WalkTitle.
Context `{Package} {R : Type}.
Variable heading_tag :
  Token.t -> list Token.t -> nat -> M R (string * gmap string string).
Variable seen : R -> bool.

Hypothesis heading_tag_sets :
  forall token tokens i self p self',
    heading_tag token tokens i self = (inr p, self') -> seen self' = true.
Hypothesis heading_tag_second :
  forall token tokens i self,
    Token.tag token = "h1" -> seen self = true ->
    exists e self', heading_tag token tokens i self = (inl e, self').

(** A rule other than that of a heading leaves the renderer alone. *)
Lemma rule_keeps_renderer (tokens : list Token.t) (i : nat) (token : Token.t)
  (self self' : R) (r : Exception + string) :
  Token.type token <> "heading_open" ->
  Renderer.rule heading_tag tokens i token self = (r, self') -> self' = self.
Proof.
  intros Htype. unfold Renderer.rule.
  case_type E; [contradiction |].
  do 4 (case_type E'; [now intros [= _ <-] | clear E']).
  unfold lift. destruct (DocBookRenderer_rule token tokens i); now intros [= _ <-].
Qed.

(** In a walk that returns, a level-1 heading has no heading before it,
    and the walk started with no title seen. *)
Lemma render_from_title_first (tokens rest : list Token.t) :
  forall (i : nat) (self self' : R) (out : string),
    Renderer.render_from heading_tag tokens i rest self = (inr out, self') ->
    forall pre token post,
      rest = pre ++ token :: post ->
      Token.type token = "heading_open" -> Token.tag token = "h1" ->
      seen self = false
      /\ Forall (fun before => Token.type before <> "heading_open") pre.
Proof.
  induction rest as [|first rest IH];
    intros i self self' out Hwalk pre token post Hsplit Htype Hh1.
  - now destruct pre.
  - cbn [Renderer.render_from] in Hwalk. revert Hwalk. run.
    destruct (Renderer.rule heading_tag tokens i first self)
      as [[e1|o1] s1] eqn:Hrule; [discriminate |].
    destruct (Renderer.render_from heading_tag tokens (S i) rest s1)
      as [[e2|o2] s2] eqn:Hrest; [discriminate |].
    intros _.
    destruct pre as [|before pre]; cbn [app] in Hsplit;
      injection Hsplit as -> ->.
    + split; [| constructor].
      rewrite rule_heading_open in Hrule by assumption.
      destruct (seen self) eqn:Hseen; [| reflexivity].
      destruct (heading_tag_second token tokens i self Hh1 Hseen)
        as (e & s & Hraise).
      rewrite Hraise in Hrule. discriminate.
    + destruct (IH (S i) s1 s2 o2 Hrest pre token post eq_refl Htype Hh1)
        as [Hseen1 Hpre].
      assert (Hbefore : Token.type before <> "heading_open").
      { intros Hopen. rewrite rule_heading_open in Hrule by assumption.
        destruct (heading_tag before tokens i self) as [[e|p] s] eqn:Htag;
          [discriminate |].
        injection Hrule as _ <-.
        apply heading_tag_sets in Htag. congruence. }
      apply rule_keeps_renderer in Hrule; [| assumption]. subst s1.
      split; [exact Hseen1 | now constructor].
Qed.
End WalkTitle.

Section TitleFirst.
Context `{Package}.

(** X4.
    A chapter or fragment that renders has its level-1 heading, if it has
    one, as its first heading: no heading of any level stands before it,
    so none is rendered as the title in its place, and it has no second
    level-1 heading. *)
Theorem rendered_title_comes_first (tokens pre post : list Token.t)
  (token : Token.t) :
  tokens = pre ++ token :: post ->
  Token.type token = "heading_open" ->
  Token.tag token = "h1" ->
  (forall self out self',
      Renderer.render ManualDocBookRenderer._heading_tag tokens self
      = (inr out, self') ->
      ManualDocBookRenderer._title_seen self = false
      /\ Forall (fun before => Token.type before <> "heading_open") pre
      /\ Forall
           (fun after => Token.type after = "heading_open" ->
                         Token.tag after <> "h1") post)
  /\ (forall self out self',
        Renderer.render ManualFragmentDocBookRenderer._heading_tag tokens self
        = (inr out, self') ->
        ManualFragmentDocBookRenderer._title_seen self = false
        /\ Forall (fun before => Token.type before <> "heading_open") pre
        /\ Forall
             (fun after => Token.type after = "heading_open" ->
                           Token.tag after <> "h1") post).
Proof.
  intros Hsplit Htype Hh1.
  assert (Hafter :
            (forall pre' token' post',
                tokens = pre' ++ token' :: post' ->
                Token.type token' = "heading_open" -> Token.tag token' = "h1" ->
                Forall (fun before => Token.type before <> "heading_open") pre') ->
            Forall
              (fun after => Token.type after = "heading_open" ->
                            Token.tag after <> "h1") post).
  { intros Hfirst. apply Forall_forall. intros after Hin Hopen Hafter1.
    apply list_elem_of_In, in_split in Hin as (l1 & l2 & ->).
    specialize (Hfirst (pre ++ token :: l1) after l2).
    rewrite Hsplit, <- app_assoc in Hfirst.
    specialize (Hfirst eq_refl Hopen Hafter1).
    apply Forall_app in Hfirst as [_ Hfirst].
    apply Forall_cons_1 in Hfirst as [Hfirst _]. contradiction. }
  split; intros self out self' Hwalk.
  - assert (Hsecond : forall t ts i s,
               Token.tag t = "h1" -> ManualDocBookRenderer._title_seen s = true ->
               exists e s', ManualDocBookRenderer._heading_tag t ts i s = (inl e, s')).
    { intros t ts i [b] Ht Hs. cbn in Hs. subst b.
      rewrite chapter_tag_second by assumption. eauto. }
    assert (Hfirst := render_from_title_first
                        ManualDocBookRenderer._heading_tag
                        ManualDocBookRenderer._title_seen
                        (fun t ts i s p s' Hret =>
                           chapter_tag_returns_seen t ts i s s' p Hret)
                        Hsecond tokens tokens 0 self self' out Hwalk).
    destruct (Hfirst pre token post Hsplit Htype Hh1) as [Hseen Hpre].
    split; [exact Hseen |]. split; [exact Hpre |].
    apply Hafter. intros pre' token' post' Hs' Ht' Hh'.
    exact (proj2 (Hfirst pre' token' post' Hs' Ht' Hh')).
  - assert (Hsecond : forall t ts i s,
               Token.tag t = "h1" ->
               ManualFragmentDocBookRenderer._title_seen s = true ->
               exists e s',
                 ManualFragmentDocBookRenderer._heading_tag t ts i s = (inl e, s')).
    { intros t ts i [[b] root] Ht Hs. cbn in Hs. subst b.
      rewrite fragment_tag_second by assumption. eauto. }
    assert (Hfirst := render_from_title_first
                        ManualFragmentDocBookRenderer._heading_tag
                        ManualFragmentDocBookRenderer._title_seen
                        (fun t ts i s p s' Hret =>
                           proj1 (fragment_tag_returns_seen t ts i s s' p Hret))
                        Hsecond tokens tokens 0 self self' out Hwalk).
    destruct (Hfirst pre token post Hsplit Htype Hh1) as [Hseen Hpre].
    split; [exact Hseen |]. split; [exact Hpre |].
    apply Hafter. intros pre' token' post' Hs' Ht' Hh'.
    exact (proj2 (Hfirst pre' token' post' Hs' Ht' Hh')).
Qed.
End TitleFirst.

Lemma rendered_title_comes_first_witness :
  Forall
    (fun after => Token.type after = "heading_open" -> Token.tag after <> "h1")
    ([Sample.token "inline" "" 0 "Intro"; Sample.token "heading_close" "h1" 0 ""]
       ++ Sample.block "p" 1 "Hello <world>").
Proof.
  refine (proj2 (proj2
            (proj1
               (rendered_title_comes_first (H := Sample.package)
                  (Sample.block "h1" 0 "Intro" ++ Sample.block "p" 1 "Hello <world>")
                  [] _ (Sample.token "heading_open" "h1" 0 "")
                  eq_refl eq_refl eq_refl)
               ManualDocBookRenderer.new _ _ _))).
  vm_compute. reflexivity.
Defined.

(** ** What the encoded text keeps *)

Section Encoding.
Import Py saxutils.

Lemma length_append (a b : string) :
  String.length (a +:+ b) = String.length a + String.length b.
Proof.
  induction a as [|x a IH]; [reflexivity |].
  rewrite append_cons. cbn [String.length]. now rewrite IH.
Qed.

Lemma append_inj_r (a b c : string) : a +:+ c = b +:+ c -> a = b.
Proof.
  revert b. induction a as [|x a IH]; intros [|y b] Heq.
  - reflexivity.
  - apply (f_equal String.length) in Heq.
    rewrite append_nil, append_cons in Heq. cbn [String.length] in Heq.
    rewrite length_append in Heq. lia.
  - apply (f_equal String.length) in Heq.
    rewrite append_nil, append_cons in Heq. cbn [String.length] in Heq.
    rewrite length_append in Heq. lia.
  - rewrite !append_cons in Heq. injection Heq as -> Heq.
    f_equal. now apply IH.
Qed.

(** The entity of a character, read at the head of a text, tells the
    character. *)
Lemma entity_inj (c1 c2 : ascii) (r1 r2 : string) :
  entity c1 +:+ r1 = entity c2 +:+ r2 -> c1 = c2 /\ r1 = r2.
Proof.
  unfold entity.
  destruct (Ascii.eqb_spec c1 "&") as [->|Ha1];
    [| destruct (Ascii.eqb_spec c1 ">") as [->|Hg1];
       [| destruct (Ascii.eqb_spec c1 "<") as [->|Hl1]]];
    (destruct (Ascii.eqb_spec c2 "&") as [->|Ha2];
     [| destruct (Ascii.eqb_spec c2 ">") as [->|Hg2];
        [| destruct (Ascii.eqb_spec c2 "<") as [->|Hl2]]]);
    rewrite ?append_cons, ?append_nil; intros Heq;
    try discriminate Heq;
    try (injection Heq as Heq; now split);
    try (injection Heq as Hc Heq; congruence).
Qed.

Lemma entities_inj (s1 s2 : string) : entities s1 = entities s2 -> s1 = s2.
Proof.
  revert s2. induction s1 as [|c1 s1 IH]; intros [|c2 s2] Heq.
  - reflexivity.
  - exfalso. cbn [entities] in Heq. unfold entity in Heq.
    repeat destruct (Ascii.eqb _ _); rewrite ?append_cons in Heq;
      discriminate Heq.
  - exfalso. cbn [entities] in Heq. unfold entity in Heq.
    repeat destruct (Ascii.eqb _ _); rewrite ?append_cons in Heq;
      discriminate Heq.
  - cbn [entities] in Heq. apply entity_inj in Heq as [-> Heq].
    f_equal. now apply IH.
Qed.

(** X5.
    A [programlisting] tells its content: two code blocks, or two fences
    with the same info string, that render alike have the same content;
    and content without [&], [<] and [>] is emitted as it is. *)
Theorem programlisting_keeps_content :
  (forall t1 t2 : Token.t,
      ManualDocBookRenderer.code_block t1 = ManualDocBookRenderer.code_block t2 ->
      Token.content t1 = Token.content t2)
  /\ (forall t1 t2 : Token.t,
        Token.info t1 = Token.info t2 ->
        ManualDocBookRenderer.fence t1 = ManualDocBookRenderer.fence t2 ->
        Token.content t1 = Token.content t2)
  /\ (forall t : Token.t,
        contains "&" (Token.content t) = false ->
        contains "<" (Token.content t) = false ->
        contains ">" (Token.content t) = false ->
        ManualDocBookRenderer.code_block t
        = "<programlisting>" +:+ nl +:+ Token.content t +:+ "</programlisting>").
Proof.
  repeat apply conj.
  - intros t1 t2. unfold ManualDocBookRenderer.code_block. intros Heq.
    do 2 apply (inj (String.append _)) in Heq.
    apply append_inj_r in Heq. rewrite !escape_entities in Heq.
    now apply entities_inj.
  - intros t1 t2 Hinfo. unfold ManualDocBookRenderer.fence. rewrite Hinfo.
    destruct (String.eqb (Token.info t2) "{=docbook}"); [trivial |].
    cbv zeta. intros Heq.
    do 4 apply (inj (String.append _)) in Heq.
    apply append_inj_r in Heq. rewrite !escape_entities in Heq.
    now apply entities_inj.
  - intros t Ha Hl Hg. unfold ManualDocBookRenderer.code_block, escape.
    rewrite (replace_absent "&") by assumption.
    rewrite (replace_absent ">") by assumption.
    now rewrite (replace_absent "<") by assumption.
Qed.

Lemma escape_attr_no_special (c : ascii) (s : string) :
  c ∈ ["<"; ">"; "010"; "013"; "009"]%char ->
  contains c (escape_attr s) = false.
Proof.
  intros Hc. apply list_elem_of_In in Hc. cbn [In] in Hc.
  destruct Hc as [<-|[<-|[<-|[<-|[<-|[]]]]]]; unfold escape_attr.
  - apply escape_attr_no_lt.
  - rewrite !contains_replace_ne by (discriminate || reflexivity).
    apply escape_no_gt.
  - rewrite !contains_replace_ne by (discriminate || reflexivity).
    now apply replace_fresh.
  - rewrite !contains_replace_ne by (discriminate || reflexivity).
    now apply replace_fresh.
  - now apply replace_fresh.
Qed.

(** X6.
    The quoted value of an attribute holds no [<], no [>], no newline,
    carriage return or tab, so the opening tag of a section with an id,
    and of a fence with an info string, stays on one line. *)
Theorem quoteattr_no_special (s : string) :
  (forall c : ascii,
      c ∈ ["<"; ">"; "010"; "013"; "009"]%char -> contains c (quoteattr s) = false)
  /\ contains "010" ("<section id=" +:+ quoteattr s +:+ ">") = false
  /\ contains "010" ("<programlisting language=" +:+ quoteattr s +:+ ">") = false.
Proof.
  assert (Hquoted : forall c : ascii,
             c ∈ ["<"; ">"; "010"; "013"; "009"]%char ->
             contains c (quoteattr s) = false).
  { intros c Hc. assert (Hbody := escape_attr_no_special c s Hc).
    assert (Hne : c <> "034"%char /\ c <> "'"%char).
    { apply list_elem_of_In in Hc. cbn [In] in Hc.
      destruct Hc as [<-|[<-|[<-|[<-|[<-|[]]]]]]; split; discriminate. }
    destruct Hne as [Hd Hs].
    assert (Hdq : contains c dquote = false).
    { unfold dquote. cbn [contains].
      destruct (Ascii.eqb_spec "034" c); [congruence | reflexivity]. }
    assert (Hsq : contains c squote = false).
    { unfold squote. cbn [contains].
      destruct (Ascii.eqb_spec "'" c); [congruence | reflexivity]. }
    unfold quoteattr.
    destruct (contains "034" (escape_attr s));
      [destruct (contains "'" (escape_attr s)) |];
      rewrite !contains_append, ?Hdq, ?Hsq, ?Hbody; try reflexivity.
    rewrite contains_replace_ne; [now rewrite Hbody | exact Hd |].
    apply list_elem_of_In in Hc. cbn [In] in Hc.
    destruct Hc as [<-|[<-|[<-|[<-|[<-|[]]]]]]; reflexivity. }
  split; [exact Hquoted |].
  assert (Hnl : contains "010" (quoteattr s) = false).
  { apply Hquoted, list_elem_of_In. cbn. tauto. }
  split; rewrite !contains_append, Hnl; reflexivity.
Qed.
End Encoding.

Lemma programlisting_keeps_content_witness :
  ManualDocBookRenderer.code_block (Sample.token "code_block" "code" 0 "x = 1")
  = "<programlisting>" +:+ Py.nl +:+ "x = 1" +:+ "</programlisting>".
Proof.
  exact (proj2 (proj2 programlisting_keeps_content)
           (Sample.token "code_block" "code" 0 "x = 1") eq_refl eq_refl eq_refl).
Defined.

Lemma quoteattr_no_special_witness :
  Py.contains "010" (saxutils.quoteattr ("a" +:+ Py.nl +:+ "b")) = false.
Proof.
  apply (proj1 (quoteattr_no_special ("a" +:+ Py.nl +:+ "b"))).
  apply list_elem_of_In. cbn. tauto.
Defined.

(** ** How [finalize] composes *)

Section FinalizeMore.
Import Py saxutils DocBookSectionConverter.

Lemma join_cons (sep x : string) (l : list string) :
  l <> [] -> join sep (x :: l) = x +:+ sep +:+ join sep l.
Proof. destruct l; [contradiction | reflexivity]. Qed.

Lemma join_app (sep : string) (a b : list string) :
  a <> [] -> b <> [] ->
  join sep (a ++ b) = join sep a +:+ sep +:+ join sep b.
Proof.
  intros Ha Hb. induction a as [|x a IH]; [contradiction |].
  destruct a as [|y a].
  - cbn [app]. now rewrite join_cons.
  - change ((x :: y :: a) ++ b) with (x :: ((y :: a) ++ b)).
    rewrite !join_cons by discriminate.
    rewrite IH by discriminate. now rewrite !append_assoc.
Qed.

(** A line break inside a piece and a break between two pieces read the
    same once joined. *)
Lemma join_split_piece (a b : list string) (x y : string) :
  join nl (a ++ [x +:+ nl +:+ y] ++ b) = join nl (a ++ [x; y] ++ b).
Proof.
  induction a as [|z a IH].
  - cbn [app]. destruct b as [|w b].
    + reflexivity.
    + rewrite !join_cons by discriminate. now rewrite !append_assoc.
  - change ((z :: a) ++ [x +:+ nl +:+ y] ++ b)
      with (z :: (a ++ [x +:+ nl +:+ y] ++ b)).
    change ((z :: a) ++ [x; y] ++ b) with (z :: (a ++ [x; y] ++ b)).
    rewrite !join_cons by (now destruct a). now rewrite IH.
Qed.

Lemma finalize_eq (l : list RenderedSection.t) (r : ManualDocBookRenderer.t) :
  finalize {| BaseConverter._sections := l; BaseConverter.renderer := r |}
  = join nl
      (flat_map
         (fun section =>
            match RenderedSection.id section with
            | Some id => "<section id=" +:+ quoteattr id +:+ ">"
            | None => "<section >"
            end :: RenderedSection.chapters section ++ ["</section>"])
         l).
Proof. unfold finalize. now rewrite finalize_pieces. Qed.

(** X7.
    The text of a manual is the text of its sections, one after the other
    with a line break between: serializing two runs of sections together
    gives the two texts joined by a newline, whatever the renderer holds. *)
Theorem finalize_app (l1 l2 : list RenderedSection.t)
  (r r1 r2 : ManualDocBookRenderer.t) :
  l1 <> [] -> l2 <> [] ->
  finalize {| BaseConverter._sections := l1 ++ l2; BaseConverter.renderer := r |}
  = finalize {| BaseConverter._sections := l1; BaseConverter.renderer := r1 |}
      +:+ nl
      +:+ finalize {| BaseConverter._sections := l2; BaseConverter.renderer := r2 |}.
Proof.
  intros H1 H2. rewrite !finalize_eq, flat_map_app.
  apply join_app.
  - destruct l1; [contradiction | discriminate].
  - destruct l2; [contradiction | discriminate].
Qed.

(** X8.
    Chapter strings are inserted as they are, neither escaped nor checked:
    a chapter that closes the section and opens one without id yields
    the very text of two sections, so the text does not tell the sections
    that were added. *)
Theorem finalize_inserts_verbatim (id : option string) (before after : list string)
  (r : ManualDocBookRenderer.t) :
  finalize
    {| BaseConverter._sections :=
         [{| RenderedSection.id := id;
             RenderedSection.chapters :=
               before ++ ["</section>" +:+ nl +:+ "<section >"] ++ after |}];
       BaseConverter.renderer := r |}
  = finalize
      {| BaseConverter._sections :=
           [{| RenderedSection.id := id; RenderedSection.chapters := before |};
            {| RenderedSection.id := None; RenderedSection.chapters := after |}];
         BaseConverter.renderer := r |}.
Proof.
  rewrite !finalize_eq.
  cbn [flat_map RenderedSection.id RenderedSection.chapters].
  set (open := match id with
               | Some id => "<section id=" +:+ quoteattr id +:+ ">"
               | None => "<section >"
               end).
  replace ((open :: (before ++ ["</section>" +:+ nl +:+ "<section >"] ++ after)
              ++ ["</section>"]) ++ [])
    with ((open :: before) ++ ["</section>" +:+ nl +:+ "<section >"]
            ++ (after ++ ["</section>"]))
    by (cbn [app]; now rewrite app_nil_r, <- !app_assoc).
  replace ((open :: before ++ ["</section>"])
             ++ ("<section >" :: after ++ ["</section>"]) ++ [])
    with ((open :: before) ++ ["</section>"; "<section >"]
            ++ (after ++ ["</section>"]))
    by (cbn [app]; now rewrite app_nil_r, <- !app_assoc).
  apply join_split_piece.
Qed.
End FinalizeMore.

Lemma finalize_app_witness :
  DocBookSectionConverter.finalize
    {| BaseConverter._sections :=
         [RenderedSection.new None] ++ [RenderedSection.new (Some "a")];
       BaseConverter.renderer := ManualDocBookRenderer.new |}
  = "<section >" +:+ Py.nl +:+ "</section>" +:+ Py.nl
      +:+ "<section id=" +:+ Py.dquote +:+ "a" +:+ Py.dquote +:+ ">"
      +:+ Py.nl +:+ "</section>".
Proof.
  rewrite (finalize_app [RenderedSection.new None] [RenderedSection.new (Some "a")]
             ManualDocBookRenderer.new ManualDocBookRenderer.new
             ManualDocBookRenderer.new)
    by discriminate.
  reflexivity.
Defined.

(** ** The actions of the command line *)

Section ActionsMore.
Context `{Cli.Host}.

Lemma update_last_snoc (f : CliSection.t -> CliSection.t)
  (l : list CliSection.t) (section : CliSection.t) :
  Cli.update_last f (l ++ [section]) = inr (Some (l ++ [f section])).
Proof.
  unfold Cli.update_last. rewrite last_snoc, length_app. cbn [length].
  replace (length l + 1 - 1) with (length l + 0) by lia.
  now rewrite alter_app_r.
Qed.

Lemma nonempty_snoc {A} (l : list A) :
  l <> [] -> exists l' x, l = l' ++ [x].
Proof.
  intros Hl. destruct (last l) as [x|] eqn:Hlast.
  - apply last_Some in Hlast as [l' ->]. eauto.
  - apply last_None in Hlast. contradiction.
Qed.

(** Once a section is open, no option raises, and only [--section] adds a
    section. *)
Lemma call_open (arg : Cli.SectionArg) (l : list CliSection.t) :
  l <> [] ->
  exists l',
    Cli.call arg (Some l) = inr (Some l')
    /\ l' <> []
    /\ length l' = length l + (if arg is Cli.arg_section then 1 else 0).
Proof.
  intros Hl. destruct arg as [|value|values]; cbn [Cli.call].
  - exists (l ++ [CliSection.new]). split; [reflexivity |].
    split; [now destruct l |]. rewrite length_app. cbn. lia.
  - destruct (nonempty_snoc l Hl) as (l0 & x & ->).
    unfold Cli.SectionIDAction. rewrite update_last_snoc.
    eexists. split; [reflexivity |]. split; [now destruct l0 |].
    rewrite !length_app. cbn. lia.
  - destruct (nonempty_snoc l Hl) as (l0 & x & ->).
    unfold Cli.ChaptersAction. rewrite update_last_snoc.
    eexists. split; [reflexivity |]. split; [now destruct l0 |].
    rewrite !length_app. cbn. lia.
Qed.

Lemma parse_contents_open (argv : list Cli.SectionArg) (l : list CliSection.t) :
  l <> [] ->
  exists l',
    Cli.parse_contents argv (Some l) = inr (Some l')
    /\ l' <> []
    /\ length l' = length l + length (List.filter Cli.opens_section argv).
Proof.
  revert l. induction argv as [|arg argv IH]; intros l Hl.
  - exists l. cbn. split; [reflexivity |]. split; [assumption | lia].
  - cbn [Cli.parse_contents].
    destruct (call_open arg l Hl) as (l1 & -> & Hl1 & Hlen1).
    destruct (IH l1 Hl1) as (l2 & -> & Hl2 & Hlen2).
    exists l2. split; [reflexivity |]. split; [assumption |].
    rewrite Hlen2, Hlen1. destruct arg; cbn; lia.
Qed.

(** X9.
    A command line is refused exactly when [--section-id] or [--chapters]
    comes before the first [--section], with "no active section"; from
    the first [--section] on nothing raises, the list of sections is
    never empty, so that [sections[-1]] is always there, and it has one
    section for each [--section]. *)
Theorem parse_contents_needs_section (argv : list Cli.SectionArg) :
  match argv with
  | [] => Cli.parse_contents argv None = inr None
  | Cli.arg_section :: argv' =>
      exists sections,
        Cli.parse_contents argv None = inr (Some sections)
        /\ sections <> []
        /\ length sections
           = length (List.filter Cli.opens_section argv)
  | _ :: _ =>
      Cli.parse_contents argv None
      = inl (Cli.ArgumentError "no active section")
  end.
Proof.
  destruct argv as [|[|value|values] argv]; [reflexivity | | reflexivity ..].
  cbn [Cli.parse_contents Cli.call Cli.SectionAction app].
  destruct (parse_contents_open argv [CliSection.new]) as (l & -> & Hl & Hlen);
    [discriminate |].
  exists l. split; [reflexivity |]. split; [assumption |].
  cbn in *. lia.
Qed.
Lemma parse_contents_app (a b : list Cli.SectionArg)
  (sections : option (list CliSection.t)) :
  Cli.parse_contents (a ++ b) sections =
    match Cli.parse_contents a sections with
    | inl e => inl e
    | inr sections' => Cli.parse_contents b sections'
    end.
Proof.
  revert sections. induction a as [|arg a IH]; intros sections; [reflexivity |].
  cbn [app Cli.parse_contents]. destruct (Cli.call arg sections); [reflexivity |].
  apply IH.
Qed.

Lemma extend_extend (a b : list Path) (section : CliSection.t) :
  CliSection.extend b (CliSection.extend a section)
  = CliSection.extend (a ++ b) section.
Proof. unfold CliSection.extend. cbn. now rewrite app_assoc. Qed.

Lemma extend_nil (section : CliSection.t) : CliSection.extend [] section = section.
Proof. destruct section. unfold CliSection.extend. cbn. now rewrite app_nil_r. Qed.

(** Several [--chapters] in a row extend the open section by all their
    paths, in order. *)
Lemma parse_chapters_run (valuess : list (list string)) (rest : list Cli.SectionArg)
  (l : list CliSection.t) (section : CliSection.t) :
  Cli.parse_contents ((Cli.arg_chapters <$> valuess) ++ rest) (Some (l ++ [section]))
  = Cli.parse_contents rest
      (Some (l ++ [CliSection.extend (Cli.pathlib_Path <$> concat valuess) section])).
Proof.
  revert section. induction valuess as [|values valuess IH]; intros section.
  - cbn. now rewrite extend_nil.
  - cbn [fmap list_fmap app Cli.parse_contents Cli.call Cli.ChaptersAction].
    rewrite update_last_snoc. change (list_fmap _ _ ?f ?l) with (f <$> l).
    rewrite IH, extend_extend. cbn [concat]. now rewrite fmap_app.
Qed.

(** X10.
    The command line of a manual, section by section: [--section], its
    [--section-id] if any, and its [--chapters] options.  It parses to one
    section per group, in order, each with its id and with the paths of
    all its [--chapters] options, in order. *)
Theorem parse_contents_groups (groups : list (option string * list (list string))) :
  Cli.parse_contents
    (flat_map
       (fun group =>
          Cli.arg_section
            :: match group.1 with
               | Some id => [Cli.arg_section_id id]
               | None => []
               end
            ++ (Cli.arg_chapters <$> group.2))
       groups)
    None
  = inr match groups with
        | [] => None
        | _ =>
            Some ((fun group =>
                     {| CliSection.id := group.1;
                        CliSection.chapters :=
                          Cli.pathlib_Path <$> concat group.2 |})
                    <$> groups)
        end.
Proof.
  assert (Hopen : forall groups l,
             Cli.parse_contents
               (flat_map
                  (fun group =>
                     Cli.arg_section
                       :: match group.1 with
                          | Some id => [Cli.arg_section_id id]
                          | None => []
                          end
                       ++ (Cli.arg_chapters <$> group.2))
                  groups)
               (Some l)
             = inr (Some (l ++ ((fun group =>
                                   {| CliSection.id := group.1;
                                      CliSection.chapters :=
                                        Cli.pathlib_Path <$> concat group.2 |})
                                  <$> groups)))).
  { clear groups. induction groups as [|[id valuess] groups IH]; intros l.
    - cbn. now rewrite app_nil_r.
    - cbn [flat_map fst snd app Cli.parse_contents Cli.call Cli.SectionAction].
      rewrite <- app_assoc.
      destruct id as [id|]; cbn [app Cli.parse_contents Cli.call Cli.SectionIDAction].
      + rewrite update_last_snoc, parse_chapters_run, IH.
        rewrite <- app_assoc. reflexivity.
      + rewrite parse_chapters_run, IH. rewrite <- app_assoc. reflexivity. }
  destruct groups as [|[id valuess] groups]; [reflexivity |].
  cbn [flat_map fst snd app Cli.parse_contents Cli.call Cli.SectionAction].
  rewrite <- app_assoc.
  destruct id as [id|]; cbn [app Cli.parse_contents Cli.call Cli.SectionIDAction].
  - change [CliSection.new] with ([] ++ [CliSection.new]).
    rewrite update_last_snoc, parse_chapters_run, Hopen. reflexivity.
  - change [CliSection.new] with ([] ++ [CliSection.new]).
    rewrite parse_chapters_run, Hopen. reflexivity.
Qed.


(** X12.
    Each occurrence of [--chapter] or [--section] of the fragment parser
    adds its pair of paths, target first, at the end of the list. *)
Theorem parse_files_pairs (pairs : list (string * string)) :
  Cli.parse_files ((fun pair => [pair.1; pair.2]) <$> pairs) None
  = inr match pairs with
        | [] => None
        | _ =>
            Some ((fun pair => (Cli.pathlib_Path pair.1, Cli.pathlib_Path pair.2))
                    <$> pairs)
        end.
Proof.
  assert (Hsome : forall pairs l,
             l <> [] ->
             Cli.parse_files ((fun pair => [pair.1; pair.2]) <$> pairs) (Some l)
             = inr (Some (l ++ ((fun pair =>
                                   (Cli.pathlib_Path pair.1, Cli.pathlib_Path pair.2))
                                  <$> pairs)))).
  { clear pairs. induction pairs as [|[target file] pairs IH]; intros l Hl.
    - cbn. now rewrite app_nil_r.
    - cbn [fmap list_fmap Cli.parse_files Cli.SingleFileAction fst snd lookup
             list_lookup].
      destruct l as [|x l]; [contradiction |].
      change (list_fmap _ _ ?f ?l) with (f <$> l).
      rewrite IH by (now destruct l). now rewrite <- app_assoc. }
  destruct pairs as [|[target file] pairs]; [reflexivity |].
  cbn [fmap list_fmap Cli.parse_files Cli.SingleFileAction fst snd lookup
         list_lookup app].
  change (list_fmap _ _ ?f ?l) with (f <$> l).
  rewrite Hsome by discriminate. reflexivity.
Qed.
End ActionsMore.

(** ** The section driver *)

Section SectionDriver.
Context `{Cli.Host}.

Local Abbreviation chapter_error chpath e :=
  (RuntimeError ("failed to render manual chapter " +:+ chpath) None (Some e)).

Lemma add_sections_returns (urls : gmap string string) (log : list Cli.Effect)
  (sections : list CliSection.t) (rendereds : list RenderedSection.t) :
  Forall2 (Cli.renders_to urls log) sections rendereds ->
  forall self, exists r,
    Cli.add_sections urls log sections self =
      (inr tt,
       {| BaseConverter._sections := BaseConverter._sections self ++ rendereds;
          BaseConverter.renderer := r |}).
Proof.
  induction 1 as [|section rendered sections rendereds [Hid Hall] _ IH];
    intros self.
  - exists (BaseConverter.renderer self). cbn. rewrite app_nil_r.
    now destruct self.
  - unfold Cli.add_sections. cbn [for_each]. run.
    rewrite add_section_unfold.
    destruct (add_section_loop_returns (H := Cli.package_of urls log)
                _ _ Hall (BaseConverter._sections self)
                (RenderedSection.new (CliSection.id section))
                (BaseConverter.renderer self)) as [r1 ->].
    destruct (IH {| BaseConverter._sections :=
                      BaseConverter._sections self
                        ++ [{| RenderedSection.id := CliSection.id section;
                               RenderedSection.chapters :=
                                 [] ++ RenderedSection.chapters rendered |}];
                    BaseConverter.renderer := r1 |}) as [r2 Hrest].
    exists r2. unfold Cli.add_sections in Hrest. cbn [RenderedSection.new
      RenderedSection.id RenderedSection.chapters]. rewrite Hrest.
    cbn [BaseConverter._sections app]. rewrite <- app_assoc.
    destruct rendered as [rid rchapters]. cbn in Hid. subst rid. reflexivity.
Qed.


(** X14.
    When every chapter of every section renders and the output file can
    be written, the section driver has exactly two effects: it truncates
    the output file and writes the manual to it, the sections in the
    order of the command line, each with its id and its rendered
    chapters. *)
Theorem run_section_writes_manual (args : Cli.Namespace) (log : list Cli.Effect)
  (f : File) (urls : gmap string string) (sections : list CliSection.t)
  (rendereds : list RenderedSection.t) :
  Cli.host_open log (Cli.manpage_urls args) = inr f ->
  Cli.json_load f = inr urls ->
  Cli.contents args = Some sections ->
  Forall2 (Cli.renders_to urls log) sections rendereds ->
  let text :=
    Py.join Py.nl
      (flat_map
         (fun section =>
            match RenderedSection.id section with
            | Some id => "<section id=" +:+ saxutils.quoteattr id +:+ ">"
            | None => "<section >"
            end :: RenderedSection.chapters section ++ ["</section>"])
         rendereds) in
  Cli.open_w log (Cli.outfile args) = None ->
  Cli.write (log ++ [Cli.Truncate (Cli.outfile args)]) (Cli.outfile args) text
  = None ->
  Cli._run_cli_db_section args log
  = (inr tt, log ++ [Cli.Truncate (Cli.outfile args);
                     Cli.Write (Cli.outfile args) text]).
Proof.
  intros Hopen Hload Hcontents Hall text Hopenw Hwrite.
  unfold Cli._run_cli_db_section. rewrite Hopen, Hload, Hcontents.
  destruct (add_sections_returns urls log sections rendereds Hall
              BaseConverter.new) as [r ->].
  cbn [BaseConverter.new BaseConverter._sections app].
  rewrite finalize_eq. fold text.
  unfold Cli.write_file. rewrite Hopenw, Hwrite. now rewrite <- app_assoc.
Qed.
End SectionDriver.


Lemma run_section_writes_manual_witness :
  exists chapter,
    Cli._run_cli_db_section (H := SampleHost.host)
      (SampleHost.section_args
         (Some [{| CliSection.id := Some "ch-intro";
                   CliSection.chapters := ["intro.md"] |}])) []
    = (inr tt,
       [Cli.Truncate "out/manual.xml";
        Cli.Write "out/manual.xml"
          ("<section id=" +:+ Py.dquote +:+ "ch-intro" +:+ Py.dquote +:+ ">"
             +:+ Py.nl +:+ chapter +:+ Py.nl +:+ "</section>")]).
Proof.
  eexists.
  refine (run_section_writes_manual (H := SampleHost.host)
            (SampleHost.section_args
               (Some [{| CliSection.id := Some "ch-intro";
                         CliSection.chapters := ["intro.md"] |}]))
            [] _ _ _
            [{| RenderedSection.id := Some "ch-intro";
                RenderedSection.chapters := [_] |}]
            eq_refl eq_refl eq_refl _ eq_refl eq_refl).
  apply Forall2_cons_2; [| apply Forall2_nil_2].
  split; [reflexivity |].
  apply Forall2_cons_2; [vm_compute; reflexivity | apply Forall2_nil_2].
Defined.

(** ** The fragment driver *)

Section FragmentDriver.
Context `{Cli.Host}.

Local Abbreviation fragment_error tag file e :=
  (RuntimeError ("failed to render manual " +:+ tag +:+ " " +:+ file) None (Some e)).
Local Abbreviation effects_of target text :=
  [Cli.Mkdir (Cli.parent target); Cli.Truncate target; Cli.Write target text].
Local Abbreviation tagged cs ss :=
  (((fun job : Path * Path => ("chapter", job)) <$> cs)
     ++ ((fun job : Path * Path => ("section", job)) <$> ss)).




Section QuietHost.
Variable urls : gmap string string.
Variable log0 : list Cli.Effect.

(** The run does not overwrite what it reads, and the host lets it
    write. *)
Hypothesis package_stable :
  forall log, Cli.package_of urls log = Cli.package_of urls log0.
Hypothesis mkdir_quiet : forall log dir, Cli.mkdir log dir = None.
Hypothesis open_w_quiet : forall log path, Cli.open_w log path = None.
Hypothesis write_quiet : forall log path text, Cli.write log path text = None.



End QuietHost.



End FragmentDriver.


